(** * InstructGLM (PubMed, Flan-T5 backbone): the training and evaluation loops

    A shallow embedding of [src/flan_pubmed_src/pretrain.py]: the class
    [Trainer] with its methods [train], [test] and [evaluate_epoch], and the
    construction of [LOSSES_NAME] in the main block.

    Conventions of the embedding.
    - Python dictionaries are finite maps [gmap string V]; a subscript read
      of an absent key raises [KeyError].
    - Tensor entries and Python floats are exact rationals ([Qc]); rounding,
      infinities and NaN are outside the model.
    - The model, its optimizer and the data loaders are opaque: a forward
      pass is given by the per-token loss it returns, a decoding pass by the
      texts it returns, and every call that acts on them is logged as an
      [event] in program order.
    - An exception stops the computation; the events logged before it are
      kept. *)

From Stdlib Require Import Ascii QArith Qcanon.
From stdpp Require Import base numbers gmap strings list pretty.

#[local] Set Warnings "-clear-no-such-hyp".

(** ** Python values, exceptions and dictionaries *)
Module Py.

Inductive exn : Type :=
| KeyError (key : string)
| IndexError
| UnboundLocalError (var : string)
| NameError (name : string)
| AttributeError (attr : string)
| ZeroDivisionError
| RuntimeError (msg : string)
| FileNotFoundError (path : string).

Inductive result (A : Type) : Type :=
| Ok (a : A)
| Raise (e : exn).
Arguments Ok {A} a.
Arguments Raise {A} e.

#[export] Instance result_ret : MRet result := λ A a, Ok a.
#[export] Instance result_bind : MBind result :=
  λ A B f m, match m with Ok a => f a | Raise e => Raise e end.

(** [l[i]] on a list *)
Definition index {A} (l : list A) (i : nat) : result A :=
  match l !! i with Some x => Ok x | None => Raise IndexError end.

(** [d[k]] on a dictionary *)
Definition getitem {V} (d : gmap string V) (k : string) : result V :=
  match d !! k with Some v => Ok v | None => Raise (KeyError k) end.

(** [str.lower()]; the texts handled here (template ids, class names,
    decoded answers) are ASCII, where only [A]..[Z] change. *)
Definition lower_char (c : ascii) : ascii :=
  let n := nat_of_ascii c in
  if (65 <=? n)%nat && (n <=? 90)%nat then ascii_of_nat (n + 32) else c.

Fixpoint lower (s : string) : string :=
  match s with
  | EmptyString => EmptyString
  | String c s' => String (lower_char c) (lower s')
  end.

(** [s.endswith(suf)] *)
Definition endswith (s suf : string) : bool :=
  bool_decide (String.list_ascii_of_string suf `suffix_of`
               String.list_ascii_of_string s).

(** The values stored in the result dictionaries: Python ints, Python
    floats and zero-dimensional tensors. *)
Inductive pyval : Type :=
| VInt (n : Z)
| VFloat (x : Qc)
| VTensor (x : Qc).

Definition num (v : pyval) : Qc :=
  match v with
  | VInt n => Qc_of_Z n
  | VFloat x => x
  | VTensor x => x
  end.

(** [a + b]: a tensor operand gives a tensor, otherwise a float operand
    gives a float, and two ints give an int. *)
Definition add (a b : pyval) : pyval :=
  match a, b with
  | VInt m, VInt n => VInt (m + n)
  | VTensor _, _ | _, VTensor _ => VTensor (num a + num b)
  | _, _ => VFloat (num a + num b)
  end.

(** [a / b] on Python numbers ([float] by [int] or [float]) *)
Definition truediv (a b : pyval) : result Qc :=
  if bool_decide (num b = 0%Qc) then Raise ZeroDivisionError
  else Ok (num a / num b)%Qc.

(** [int(v)]: truncation toward zero *)
Definition to_int (v : pyval) : Z :=
  match v with
  | VInt n => n
  | VFloat x | VTensor x => (Qnum x ÷ Zpos (Qden x))%Z
  end.

(** [v.item()], defined on tensors only *)
Definition item (v : pyval) : result pyval :=
  match v with
  | VTensor x => Ok (VFloat x)
  | _ => Raise (AttributeError "item")
  end.

(** [s[-n:]] *)
Definition slice_last (n : nat) (s : string) : string :=
  String.substring (String.length s - n) n s.

End Py.
Import Py.

(** ** Tensors of rank one and two, as lists *)
Module Tensor.

Definition sum (v : list Qc) : Qc := foldr Qcplus 0%Qc v.

(** [t.view(B, L)] of a flat tensor *)
Fixpoint chunks (B L : nat) (flat : list Qc) : list (list Qc) :=
  match B with
  | O => []
  | S B' => take L flat :: chunks B' L (drop L flat)
  end.

Definition view (B L : nat) (flat : list Qc) : result (list (list Qc)) :=
  if bool_decide (length flat = (B * L)%nat) then Ok (chunks B L flat)
  else Raise (RuntimeError "shape is invalid for input size").

(** [x.clamp(min=m)] *)
Definition clamp_min (m x : Qc) : Qc :=
  if bool_decide (x < m)%Qc then m else x.

(** [a * b] on vectors, with the broadcasting of a one-element operand *)
Definition mul1 (a b : list Qc) : result (list Qc) :=
  if bool_decide (length a = length b) then Ok (zip_with Qcmult a b)
  else match a, b with
       | [x], _ => Ok (Qcmult x <$> b)
       | _, [y] => Ok ((λ x, x * y)%Qc <$> a)
       | _, _ => Raise (RuntimeError "size mismatch")
       end.

(** [v.mean()]; the mean of an empty tensor has no value in the model. *)
Definition mean (v : list Qc) : Qc :=
  (sum v / Qc_of_Z (Z.of_nat (length v)))%Qc.

End Tensor.

(** ** Configuration *)
Module Args.

Record t : Type := {
  epoch : nat;
  lr : string;   (** the learning rate as [str.format] renders it *)
  train : string;
  distributed : bool;
  fp16 : bool;
  gradient_accumulation_steps : Z;
  clip_grad_norm : Qc;
  losses : list string   (** [args.losses.split(',')] *)
}.

(** The main block: [LOSSES_NAME] *)
Definition LOSSES_NAME (a : t) : list string :=
  ((λ name, name +:+ "_loss") <$> losses a) ++ ["total_loss"].

End Args.

(** Module-level flags of the source *)
Definition _use_native_amp : bool := true.
Definition _use_apex : bool := false.

(** ** Effects *)
Inductive event : Type :=
| Backward (loss : Qc)
| ScaledBackward (loss : Qc)
| Unscale
| ClipGradNorm (max_norm : Qc)
| OptimStep
| ScalerStep
| ScalerUpdate
| SchedulerStep
| ZeroGrad
| Save (path : string)
| PrintLosses (avg_train_loss : Qc) (losses_str : list (string * Z * Qc))
| LoadCheckpoint (path : string)
| Report (header : string) (body : list (string * pyval)).

(** A computation logs events and ends with a value or an exception. *)
Record M (A : Type) : Type := MkM { trace : list event; outcome : result A }.
Arguments MkM {A} trace outcome.
Arguments trace {A} m.
Arguments outcome {A} m.

#[export] Instance M_ret : MRet M := λ A a, MkM [] (Ok a).
#[export] Instance M_bind : MBind M :=
  λ A B f m,
    match outcome m with
    | Ok a => MkM (trace m ++ trace (f a)) (outcome (f a))
    | Raise e => MkM (trace m) (Raise e)
    end.

Definition emit (evs : list event) : M unit := MkM evs (Ok tt).
Definition lift {A} (r : result A) : M A := MkM [] r.

(** ** Checkpoint names and the schedule inside an epoch *)
Module Checkpoint.

(** ["flan_pubmed_{}_{}_8_{}_<tag>.pth".format(epoch_no, lr, train)] *)
Definition name (a : Args.t) (epoch_no : nat) (tag : string) : string :=
  "flan_pubmed_" +:+ pretty epoch_no +:+ "_" +:+ Args.lr a +:+ "_8_" +:+
  Args.train a +:+ "_" +:+ tag +:+ ".pth".

Definition tag_if (c : bool) (tag : string) : list string :=
  if c then [tag] else [].

(** The seven tests that follow [global_step += 1], in the order of the
    source; [total] is [len(self.train_loader)].  The other conjunct of each
    test, [epoch > -1], holds for every [epoch] of a [range]. *)
Definition phase_tags (total global_step : nat) : list string :=
  tag_if (global_step =? total / 2)%nat "mid2" ++
  tag_if (global_step =? total / 4)%nat "mid1" ++
  tag_if (global_step =? total * 3 / 4)%nat "mid3" ++
  tag_if (global_step =? total / 8)%nat "mmid1" ++
  tag_if (global_step =? total * 3 / 8)%nat "mmid2" ++
  tag_if (global_step =? total * 5 / 8)%nat "mmid3" ++
  tag_if (global_step =? total * 7 / 8)%nat "mend".

Definition saves (verbose : bool) (a : Args.t) (epoch : nat) (tags : list string)
  : list event :=
  if verbose then (λ tag, Save (name a (epoch + 1) tag)) <$> tags else [].

End Checkpoint.

(** ** Monadic folds: a Python [for] loop whose body may raise *)
Fixpoint foldl_result {A B} (f : A → B → result A) (a : A) (l : list B)
  : result A :=
  match l with
  | [] => Ok a
  | x :: l' => a' ← f a x; foldl_result f a' l'
  end.

Fixpoint foldl_M {A B} (f : A → B → M A) (a : A) (l : list B) : M A :=
  match l with
  | [] => mret a
  | x :: l' => a' ← f a x; foldl_M f a' l'
  end.

(** ** The trainer *)
Module Trainer.

(** The fields of the trainer object that the loops read. *)
Record t : Type := {
  args : Args.t;
  verbose : bool;               (** set by [TrainerBase] on the lead process *)
  lr_scheduler : bool;          (** whether [self.lr_scheduler] is set *)
  model_losses : list string    (** [self.model.module.losses] *)
}.

(** A batch of the data source, one entry per example in every field;
    [target_ids] has [seq_len] entries per example. *)
Record batch : Type := {
  target_ids : list (list Z);
  seq_len : nat;
  loss_weights : list Qc;
  task : list string;
  temp_ids : list string;
  cate : list string;
  target_text : list string
}.

(** *** One forward pass and its result dictionary (lines 134-172) *)

Definition lm_mask (lm_labels : list (list Z)) : list (list Qc) :=
  (λ labels : list Z,
     (λ label, if bool_decide (label ≠ -100)%Z then 1%Qc else 0%Qc)
       <$> labels) <$> lm_labels.

(** [loss.view(B, L) * lm_mask], then
    [loss.sum(dim=1) / lm_mask.sum(dim=1).clamp(min=1)] *)
Definition example_loss (B L : nat) (lm_labels : list (list Z))
    (output_loss : list Qc) : result (list Qc) :=
  let lm_mask := lm_mask lm_labels in
  loss ← Tensor.view B L output_loss;
  let loss := zip_with (zip_with Qcmult) loss lm_mask in
  mret (zip_with Qcdiv (Tensor.sum <$> loss)
          (Tensor.clamp_min 1%Qc <$> (Tensor.sum <$> lm_mask))).

(** [{task: 0 for task in losses}] *)
Definition zeros {V} (zero : V) (tasks : list string) : gmap string V :=
  foldl (λ d task, <[task := zero]> d) ∅ tasks.

(** The body of [for _loss, task in zip(loss.detach(), batch['task'])] *)
Definition tally (acc : gmap string pyval * gmap string Z) (x : Qc * string)
  : result (gmap string pyval * gmap string Z) :=
  let '(task_loss, task_counts) := acc in
  let '(_loss, task) := x in
  l ← getitem task_loss task;
  let task_loss := <[task := Py.add l (VTensor _loss)]> task_loss in
  c ← getitem task_counts task;
  let task_counts := <[task := (c + 1)%Z]> task_counts in
  mret (task_loss, task_counts).

(** The body of [for task in self.model.module.losses] *)
Definition record_task (task_loss : gmap string pyval)
    (task_counts : gmap string Z) (results : gmap string pyval)
    (task : string) : result (gmap string pyval) :=
  c ← getitem task_counts task;
  if bool_decide (0 < c)%Z then
    l ← getitem task_loss task;
    mret (<[task +:+ "_loss_count" := VInt c]>
            (<[task +:+ "_loss" := l]> results))
  else mret results.

Definition forward (tr : t) (b : batch) (output_loss : list Qc)
  : result (gmap string pyval) :=
  let lm_labels := target_ids b in
  let B := length lm_labels in
  let L := seq_len b in
  loss ← example_loss B L lm_labels output_loss;
  weighted ← Tensor.mul1 loss (loss_weights b);
  let results : gmap string pyval := ∅ in
  let results := <["loss" := VTensor (Tensor.mean weighted)]> results in
  let results := <["total_loss" := VTensor (Tensor.sum loss)]> results in
  let results :=
    <["total_loss_count" := VInt (Z.of_nat (length loss))]> results in
  let task_counts := zeros 0%Z (model_losses tr) in
  let task_loss := zeros (VInt 0) (model_losses tr) in
  acc ← foldl_result tally (task_loss, task_counts) (zip loss (task b));
  foldl_result (record_task acc.1 acc.2) results (model_losses tr).

(** *** Merging a step's results into [epoch_results] (lines 244-249) *)

Definition merge_item (epoch_results : gmap string pyval)
    (kv : string * pyval) : gmap string pyval :=
  let '(k, v) := kv in
  match epoch_results !! k with
  | Some old =>
      match v with
      | VInt n => <[k := Py.add old (VInt n)]> epoch_results
      | VTensor x => <[k := Py.add old (VFloat x)]> epoch_results
      | VFloat _ => epoch_results
      end
  | None => epoch_results
  end.

Definition merge (epoch_results results : gmap string pyval)
  : gmap string pyval :=
  foldl merge_item epoch_results (map_to_list results).

(** Lines 117-120 *)
Definition init_epoch_results (LOSSES_NAME : list string)
  : gmap string pyval :=
  foldl (λ d loss_name,
           <[loss_name +:+ "_count" := VInt 0]> (<[loss_name := VFloat 0]> d))
        ∅ LOSSES_NAME.

(** *** One step of the loop over the train loader (lines 122-264) *)

(** The local variables that live across steps. [results] is unbound until
    a forward pass has run. *)
Record loop_state : Type := {
  results : option (gmap string pyval);
  epoch_results : gmap string pyval;
  global_step : nat
}.

Definition backward (a : Args.t) (loss : Qc) : M unit :=
  if Args.fp16 a && _use_native_amp then emit [ScaledBackward loss]
  else if Args.fp16 a && _use_apex then lift (Raise (NameError "amp"))
  else emit [Backward loss].

(** Lines 187-208: the parameter update *)
Definition update_parameters (tr : t) : list event :=
  let a := args tr in
  (if bool_decide (0 < Args.clip_grad_norm a)%Qc then
     if Args.fp16 a && _use_native_amp then
       [Unscale; ClipGradNorm (Args.clip_grad_norm a)]
     else if Args.fp16 a && _use_apex then
       [ClipGradNorm (Args.clip_grad_norm a)]
     else [ClipGradNorm (Args.clip_grad_norm a)]
   else []) ++
  (if Args.fp16 a && _use_native_amp then [ScalerStep; ScalerUpdate]
   else [OptimStep]) ++
  (if lr_scheduler tr then [SchedulerStep] else []) ++
  [ZeroGrad].

(** [step_i % gradient_accumulation_steps == 0] *)
Definition is_update_step (a : Args.t) (step_i : nat) : result bool :=
  let G := Args.gradient_accumulation_steps a in
  if bool_decide (G = 0)%Z then Raise ZeroDivisionError
  else Ok (bool_decide (Z.of_nat step_i mod G = 0)%Z).

(** Lines 127-172, and the read of [results] at line 174: the forward pass
    is skipped under [fp16] and outside a distributed run. *)
Definition current_results (tr : t) (st : loop_state) (x : batch * list Qc)
  : result (gmap string pyval) :=
  let a := args tr in
  results ←
    (if Args.fp16 a && _use_native_amp then Ok (results st)
     else if Args.distributed a then
       r ← forward tr x.1 x.2; Ok (Some r)
     else Ok (results st));
  match results with
  | Some r => Ok r
  | None => Raise (UnboundLocalError "results")
  end.

Definition step (tr : t) (epoch total : nat) (st : loop_state)
    (step_i : nat) (x : batch * list Qc) : M loop_state :=
  let a := args tr in
  results ← lift (current_results tr st x);
  l ← lift (getitem results "loss");
  let loss :=
    (num l / Qc_of_Z (Args.gradient_accumulation_steps a))%Qc in
  backward a loss;;
  upd ← lift (is_update_step a step_i);
  emit (if (upd : bool) then update_parameters tr else []);;
  let global_step := S (global_step st) in
  emit (Checkpoint.saves (verbose tr) a epoch
          (Checkpoint.phase_tags total global_step));;
  mret {| results := Some results;
          epoch_results := merge (epoch_results st) results;
          global_step := global_step |}.

(** [for step_i, batch in enumerate(self.train_loader)] *)
Fixpoint loop (tr : t) (epoch total : nat) (st : loop_state) (step_i : nat)
    (loader : list (batch * list Qc)) : M loop_state :=
  match loader with
  | [] => mret st
  | x :: rest =>
      st' ← step tr epoch total st step_i x;
      loop tr epoch total st' (S step_i) rest
  end.

(** *** The end of an epoch (lines 266-299) *)

(** The body of [for name, loss in results.items()] *)
Definition report_entry (results : gmap string pyval)
    (losses_str : list (string * Z * Qc)) (kv : string * pyval)
  : result (list (string * Z * Qc)) :=
  let '(name, loss) := kv in
  if bool_decide (slice_last 4 name = "loss") then
    c ← getitem results (name +:+ "_count");
    let loss_count := to_int c in
    if bool_decide (0 < loss_count)%Z then
      let avg_loss := (num loss / Qc_of_Z loss_count)%Qc in
      mret (losses_str ++ [(name, loss_count, avg_loss)])
    else mret losses_str
  else mret losses_str.

(** Lines 277-291. The reduced values are taken as Python numbers, whose
    division by zero raises. *)
Definition epoch_report (results : gmap string pyval) : M unit :=
  train_loss ← lift (getitem results "total_loss");
  train_loss_count ← lift (getitem results "total_loss_count");
  avg_train_loss ← lift (truediv train_loss train_loss_count);
  losses_str ← lift (foldl_result (report_entry results) []
                       (map_to_list results));
  emit [PrintLosses avg_train_loss losses_str].

Section Train.

(** [dist_utils.reduce_dict(_, average=False)], the cross-process sum *)
Variable reduce_dict : gmap string pyval → gmap string pyval.

(** The body of [for epoch in range(self.args.epoch)]; [loader] pairs every
    batch with the per-token loss the model returns for it. *)
Definition train_epoch (tr : t) (results_var : option (gmap string pyval))
    (epoch : nat) (loader : list (batch * list Qc))
  : M (option (gmap string pyval)) :=
  let a := args tr in
  let total := length loader in
  let epoch_results := init_epoch_results (Args.LOSSES_NAME a) in
  st ← loop tr epoch total
         {| results := results_var; epoch_results := epoch_results;
            global_step := 0 |} 0 loader;
  let results := reduce_dict (Trainer.epoch_results st) in
  (if verbose tr then epoch_report results else mret tt);;
  emit (Checkpoint.saves (verbose tr) a epoch ["end"]);;
  mret (Some results).

Definition train (tr : t) (run : nat → list (batch * list Qc)) : M unit :=
  foldl_M (λ results_var epoch, train_epoch tr results_var epoch (run epoch))
          None (seq 0 (Args.epoch (args tr)));;
  mret tt.

End Train.

(** *** Evaluation (lines 360-386) *)

(** Lines 361-369 *)
Definition init_ACC (a : Args.t) (val_list : gmap string (list (list string)))
  : gmap string Z :=
  foldl (λ (ACC : gmap string Z) (kv : string * list (list string)),
           if bool_decide (kv.1 = "classification") then
             if bool_decide (Args.train a = "PubMed") then
               let templates :=
                 foldl (λ templates tems, templates ++ tems) [] kv.2 in
               foldl (λ (ACC : gmap string Z) thing,
                        <[(thing +:+ "-") +:+ "transductive" := 0%Z]> ACC)
                     ACC templates
             else ACC
           else ACC)
        ∅ (map_to_list val_list).

(** The body of [for iiid in range(len(results))] *)
Definition score (b : batch) (results : list string) (ACC : gmap string Z)
    (iiid : nat) : result (gmap string Z) :=
  task ← index (task b) iiid;
  temp_id ← index (temp_ids b) iiid;
  if bool_decide (task = "classification") then
    cate ← index (cate b) iiid;
    if endswith temp_id "2" || endswith temp_id "4" ||
       endswith temp_id "6" || endswith temp_id "7" then
      prediction ← index results iiid;
      target ← index (target_text b) iiid;
      if bool_decide (lower prediction = target) then
        let key := (temp_id +:+ "-") +:+ cate in
        old ← getitem ACC key;
        mret (<[key := (old + 1)%Z]> ACC)
      else mret ACC
    else mret ACC
  else mret ACC.

(** The body of the loop over the validation loader; [g_step] is the
    decoding pass of the model, and [results] stays unbound unless the run
    is distributed. *)
Definition evaluate_batch (a : Args.t) (g_step : batch → list string)
    (st : option (list string) * gmap string Z) (b : batch)
  : result (option (list string) * gmap string Z) :=
  let results := if Args.distributed a then Some (g_step b) else st.1 in
  results ← match results with
            | Some r => Ok r
            | None => Raise (UnboundLocalError "results")
            end;
  ACC ← foldl_result (score b results) st.2 (seq 0 (length results));
  mret (Some results, ACC).

Definition evaluate_epoch (a : Args.t)
    (val_list : gmap string (list (list string)))
    (g_step : batch → list string) (val_loader : list batch)
  : result (gmap string Z) :=
  st ← foldl_result (evaluate_batch a g_step) (None, init_ACC a val_list)
         val_loader;
  mret st.2.

(** *** Testing the saved checkpoints (lines 303-357) *)

(** Lines 305-316: the [if]/[elif] chain has no [else]. *)
Definition ckpt_path (a : Args.t) (epoch : nat) : result string :=
  if ((epoch + 1) mod 4 =? 1)%nat then
    Ok (Checkpoint.name a (epoch / 4 + 1) "mid1")
  else if ((epoch + 1) mod 4 =? 2)%nat then
    Ok (Checkpoint.name a (epoch / 4 + 1) "mid2")
  else if ((epoch + 1) mod 4 =? 3)%nat then
    Ok (Checkpoint.name a (epoch / 4 + 1) "mid3")
  else if ((epoch + 1) mod 4 =? 0)%nat then
    Ok (Checkpoint.name a (epoch / 4 + 1) "end")
  else Raise (UnboundLocalError "ckpt_path").

(** Lines 346-353 *)
Definition report_header (epoch : nat) : string :=
  if ((epoch + 1) mod 4 =? 1)%nat then pretty (epoch / 4 + 1)%nat +:+ "_mid1"
  else if ((epoch + 1) mod 4 =? 2)%nat then
    pretty (epoch / 4 + 1)%nat +:+ "_mid2"
  else if ((epoch + 1) mod 4 =? 3)%nat then
    pretty (epoch / 4 + 1)%nat +:+ "_mid3"
  else pretty (epoch / 4 + 1)%nat +:+ "_end".

(** Lines 334-337: the body of [for kk in valid_results.keys()] *)
Definition normalise (a : Args.t) (len_transductive : Z)
    (valid_results : gmap string pyval) (kk : string)
  : result (gmap string pyval) :=
  if endswith kk "transductive" then
    if bool_decide (Args.train a = "PubMed") then
      v ← getitem valid_results kk;
      x ← item v;
      q ← truediv x (VInt len_transductive);
      mret (<[kk := VFloat q]> valid_results)
    else mret valid_results
  else mret valid_results.

Section Test.

(** [TrainerBase.load_checkpoint] *)
Variable load_checkpoint : string → result unit.
(** [self.model.g_step] once the checkpoint of that name is loaded *)
Variable g_step : string → batch → list string.
(** [dist_utils.new_reduce_dict] and the size of the transductive split *)
Variable new_reduce_dict : gmap string Z → gmap string pyval.
Variable len_transductive : Z.

Definition test_slot (tr : t) (val_list : gmap string (list (list string)))
    (val_loader : list batch) (epoch : nat) : M unit :=
  let a := args tr in
  path ← lift (ckpt_path a epoch);
  emit [LoadCheckpoint path];;
  lift (load_checkpoint path);;
  valid_results ← lift (evaluate_epoch a val_list (g_step path) val_loader);
  let valid_results := new_reduce_dict valid_results in
  if verbose tr then
    valid_results ← lift (foldl_result (normalise a len_transductive)
                            valid_results (map_to_list valid_results).*1);
    emit [Report (report_header epoch) (map_to_list valid_results)]
  else mret tt.

Definition test (tr : t) (val_list : gmap string (list (list string)))
    (val_loader : list batch) : M unit :=
  foldl_M (λ _ epoch, test_slot tr val_list val_loader epoch) tt
          (seq 0 (4 * Args.epoch (args tr))).

End Test.

End Trainer.

(** Modelled from the spec: [TrainerBase.load_checkpoint] is defined in
    [trainer_base.py], which is not part of the sources; by the
    specification a checkpoint file that is missing at evaluation time is a
    fatal error that propagates immediately.  [files] are the names of the
    checkpoint files on disk. *)
Definition load_checkpoint (files : gset string) (path : string)
  : result unit :=
  if bool_decide (path ∈ files) then Ok tt else Raise (FileNotFoundError path).

(** ** Observations on a trace *)

Definition saved_paths (evs : list event) : list string :=
  flat_map (λ e, match e with Save path => [path] | _ => [] end) evs.

Definition loaded_paths (evs : list event) : list string :=
  flat_map (λ e, match e with LoadCheckpoint path => [path] | _ => [] end) evs.

Definition is_optimizer_event (e : event) : bool :=
  match e with
  | OptimStep | ScalerStep | SchedulerStep => true
  | _ => false
  end.

(** ** Readings of the specification that the code is compared with *)

(** §4.4: the tags [mmid1..mmid3], [mid1..mid3], [mend] "in increasing
    order" of the fractions 1/8 .. 7/8, as pairs (eighths, tag). *)
Definition spec_increasing_order_labels : list (nat * string) :=
  [(1, "mmid1"); (2, "mmid2"); (3, "mmid3"); (4, "mid1"); (5, "mid2");
   (6, "mid3"); (7, "mend")].

(** §4.1 step 5: "every [gradient_accumulation_steps]-th step", counting
    the steps of the epoch from one. *)
Definition spec_every_nth_step (G : Z) (step_i : nat) : bool :=
  bool_decide ((Z.of_nat step_i + 1) mod G = 0)%Z.

(** §4.2: a case-insensitive comparison of two texts *)
Definition spec_case_insensitive_eq (s1 s2 : string) : bool :=
  bool_decide (lower s1 = lower s2).

(** §4.5 and §6: the file that slot [i] of the evaluation path reads *)
Definition spec_slot_tag (i : nat) : string :=
  match (i + 1) mod 4 with
  | 1 => "mid1"
  | 2 => "mid2"
  | 3 => "mid3"
  | _ => "end"
  end.

Definition spec_slot_file (a : Args.t) (i : nat) : string :=
  "flan_pubmed_" +:+ pretty (i / 4 + 1)%nat +:+ "_" +:+ Args.lr a +:+ "_8_" +:+
  Args.train a +:+ "_" +:+ spec_slot_tag i +:+ ".pth".

(** ** A small run, used to exercise the statements below *)
Module Sample.

Definition q (n : Z) : Qc := Qc_of_Z n.

Definition a : Args.t := {|
  Args.epoch := 1;
  Args.lr := "8e-05";
  Args.train := "PubMed";
  Args.distributed := true;
  Args.fp16 := false;
  Args.gradient_accumulation_steps := 2;
  Args.clip_grad_norm := 1%Qc;
  Args.losses := ["link"; "classification"]
|}.

Definition tr : Trainer.t := {|
  Trainer.args := a;
  Trainer.verbose := true;
  Trainer.lr_scheduler := true;
  Trainer.model_losses := ["link"; "classification"]
|}.

(** Two examples of three positions: the second position of the first
    example and all positions of the second one are padding. *)
Definition b : Trainer.batch := {|
  Trainer.target_ids := [[5; -100; 7]; [-100; -100; -100]]%Z;
  Trainer.seq_len := 3;
  Trainer.loss_weights := [1%Qc; 1%Qc];
  Trainer.task := ["link"; "classification"];
  Trainer.temp_ids := ["1-3-1-1"; "2-1-2-2"];
  Trainer.cate := ["transductive"; "transductive"];
  Trainer.target_text := ["x"; "yes"]
|}.

Definition output_loss : list Qc := [q 1; q 2; q 3; q 4; q 5; q 6].

Definition loader : list (Trainer.batch * list Qc) :=
  [(b, output_loss); (b, output_loss)].

Definition val_list : gmap string (list (list string)) :=
  {[ "classification" := [["6-6-6-6"; "6-6-6-7"]; ["2-1-2-2"]] ]}.

End Sample.

(** * Properties *)

(** ** The monads *)

Lemma M_bind_Ok {A B} (m : M A) (f : A → M B) a :
  outcome m = Ok a → m ≫= f = MkM (trace m ++ trace (f a)) (outcome (f a)).
Proof. intros H. unfold mbind, M_bind. by rewrite H. Qed.

Lemma M_bind_Raise {A B} (m : M A) (f : A → M B) e :
  outcome m = Raise e → m ≫= f = MkM (trace m) (Raise e).
Proof. intros H. unfold mbind, M_bind. by rewrite H. Qed.

Lemma M_bind_inv {A B} (m : M A) (f : A → M B) b :
  outcome (m ≫= f) = Ok b →
  ∃ a, outcome m = Ok a ∧ outcome (f a) = Ok b ∧
       trace (m ≫= f) = trace m ++ trace (f a).
Proof.
  unfold mbind, M_bind. destruct (outcome m) as [a|e] eqn:E; simpl; [|done].
  intros H. by exists a.
Qed.

Lemma result_bind_inv {A B} (m : result A) (f : A → result B) b :
  m ≫= f = Ok b → ∃ a, m = Ok a ∧ f a = Ok b.
Proof. destruct m as [a|e]; simpl; [|done]. intros H. by exists a. Qed.

Lemma saved_paths_app evs1 evs2 :
  saved_paths (evs1 ++ evs2) = saved_paths evs1 ++ saved_paths evs2.
Proof. apply flat_map_app. Qed.

Lemma loaded_paths_app evs1 evs2 :
  loaded_paths (evs1 ++ evs2) = loaded_paths evs1 ++ loaded_paths evs2.
Proof. apply flat_map_app. Qed.

(** ** The checkpoint schedule *)

Lemma elem_of_tag_if c tag x : x ∈ Checkpoint.tag_if c tag ↔ c = true ∧ x = tag.
Proof.
  destruct c; simpl; rewrite ?list_elem_of_singleton, ?elem_of_nil;
    naive_solver.
Qed.

Lemma phase_tags_spec total s tag :
  tag ∈ Checkpoint.phase_tags total s ↔
    (tag = "mid2" ∧ s = total / 2) ∨ (tag = "mid1" ∧ s = total / 4) ∨
    (tag = "mid3" ∧ s = total * 3 / 4) ∨ (tag = "mmid1" ∧ s = total / 8) ∨
    (tag = "mmid2" ∧ s = total * 3 / 8) ∨
    (tag = "mmid3" ∧ s = total * 5 / 8) ∨ (tag = "mend" ∧ s = total * 7 / 8).
Proof.
  unfold Checkpoint.phase_tags.
  rewrite !elem_of_app, !elem_of_tag_if, !Nat.eqb_eq. tauto.
Qed.

Lemma phase_tags_NoDup total s : NoDup (Checkpoint.phase_tags total s).
Proof.
  unfold Checkpoint.phase_tags, Checkpoint.tag_if.
  repeat case_match; compute_done.
Qed.

Lemma phase_tags_nonempty total s :
  Checkpoint.phase_tags total s ≠ [] ↔
    s = total / 8 ∨ s = total / 4 ∨ s = total * 3 / 8 ∨ s = total / 2 ∨
    s = total * 5 / 8 ∨ s = total * 3 / 4 ∨ s = total * 7 / 8.
Proof.
  split.
  - intros Hne. destruct (Checkpoint.phase_tags total s) as [|tag l] eqn:E;
      [done|].
    assert (Hin : tag ∈ Checkpoint.phase_tags total s)
      by (rewrite E; apply elem_of_cons; by left).
    apply phase_tags_spec in Hin. naive_solver.
  - intros H Hnil.
    assert (Hin : ∃ tag, tag ∈ Checkpoint.phase_tags total s).
    { destruct H as [H|[H|[H|[H|[H|[H|H]]]]]];
        [exists "mmid1"|exists "mid1"|exists "mmid2"|exists "mid2"
        |exists "mmid3"|exists "mid3"|exists "mend"];
        apply phase_tags_spec; naive_solver. }
    destruct Hin as [tag Hin]. rewrite Hnil in Hin. by apply elem_of_nil in Hin.
Qed.

Lemma name_inj a n : Inj (=) (=) (Checkpoint.name a n).
Proof.
  intros t1 t2 H. unfold Checkpoint.name in H.
  repeat apply (inj (String.app _)) in H.
  assert (Hr : ∀ s1 s2 : string, s1 +:+ ".pth" = s2 +:+ ".pth" → s1 = s2).
  { induction s1 as [|c s1 IH]; intros [|d s2] E; simpl in E; try done.
    - destruct s2 as [|? [|? [|? [|? [|]]]]]; simplify_eq/=.
    - destruct s1 as [|? [|? [|? [|? [|]]]]]; simplify_eq/=.
    - simplify_eq/=. f_equal. by apply IH. }
  by apply Hr.
Qed.

Lemma saved_paths_saves a epoch tags :
  saved_paths (Checkpoint.saves true a epoch tags)
  = Checkpoint.name a (epoch + 1) <$> tags.
Proof. simpl. induction tags as [|t l IH]; simpl; [done|]. by f_equal. Qed.

(** ** One step of the training loop *)

Lemma backward_trace a loss :
  outcome (Trainer.backward a loss) = Ok tt →
  trace (Trainer.backward a loss)
  = [if Args.fp16 a then ScaledBackward loss else Backward loss].
Proof. unfold Trainer.backward. by destruct (Args.fp16 a). Qed.

(** A step that completes has read a result dictionary [r], run one
    backward pass, updated the parameters when [is_update_step] says so,
    written the checkpoints due at the new [global_step] and merged [r]. *)
Lemma step_Ok tr epoch total st i x st' :
  outcome (Trainer.step tr epoch total st i x) = Ok st' →
  ∃ r l upd,
    Trainer.current_results tr st x = Ok r ∧
    getitem r "loss" = Ok l ∧
    Trainer.is_update_step (Trainer.args tr) i = Ok upd ∧
    st' = {| Trainer.results := Some r;
             Trainer.epoch_results :=
               Trainer.merge (Trainer.epoch_results st) r;
             Trainer.global_step := S (Trainer.global_step st) |} ∧
    trace (Trainer.step tr epoch total st i x) =
      [let loss := (num l / Qc_of_Z (Args.gradient_accumulation_steps
                                    (Trainer.args tr)))%Qc in
       if Args.fp16 (Trainer.args tr) then ScaledBackward loss
       else Backward loss] ++
      (if upd then Trainer.update_parameters tr else []) ++
      Checkpoint.saves (Trainer.verbose tr) (Trainer.args tr) epoch
        (Checkpoint.phase_tags total (S (Trainer.global_step st))).
Proof.
  unfold Trainer.step. intros H.
  apply M_bind_inv in H as (r & H1 & H & ->).
  apply M_bind_inv in H as (l & H2 & H & ->).
  apply M_bind_inv in H as ([] & H3 & H & ->).
  apply M_bind_inv in H as (upd & H4 & H & ->).
  apply M_bind_inv in H as ([] & H5 & H & ->).
  apply M_bind_inv in H as ([] & H6 & H & ->).
  simpl in *. simplify_eq. exists r, l, upd.
  rewrite (backward_trace _ _ H3), app_nil_r. done.
Qed.

Lemma saved_paths_update_parameters tr :
  saved_paths (Trainer.update_parameters tr) = [].
Proof.
  unfold Trainer.update_parameters. rewrite !saved_paths_app.
  by repeat case_match.
Qed.

Lemma step_saved_paths tr epoch total st i x st' :
  Trainer.verbose tr = true →
  outcome (Trainer.step tr epoch total st i x) = Ok st' →
  saved_paths (trace (Trainer.step tr epoch total st i x))
  = Checkpoint.name (Trainer.args tr) (epoch + 1)
      <$> Checkpoint.phase_tags total (S (Trainer.global_step st)).
Proof.
  intros Hv H. apply step_Ok in H as (r & l & upd & _ & _ & _ & _ & ->).
  rewrite !saved_paths_app, Hv, saved_paths_saves.
  destruct upd; rewrite ?saved_paths_update_parameters; by case_match.
Qed.

Lemma loop_saved_paths tr epoch total loader : ∀ st i st',
  Trainer.verbose tr = true →
  outcome (Trainer.loop tr epoch total st i loader) = Ok st' →
  Trainer.global_step st' = Trainer.global_step st + length loader ∧
  saved_paths (trace (Trainer.loop tr epoch total st i loader))
  = flat_map (λ s, Checkpoint.name (Trainer.args tr) (epoch + 1)
                     <$> Checkpoint.phase_tags total s)
             (seq (S (Trainer.global_step st)) (length loader)).
Proof.
  induction loader as [|x rest IH]; intros st i st' Hv H; simpl in *.
  - simplify_eq. split; [lia|done].
  - apply M_bind_inv in H as (st1 & H1 & H2 & ->).
    destruct (IH _ _ _ Hv H2) as [Hg Hs].
    rewrite saved_paths_app, Hs, (step_saved_paths _ _ _ _ _ _ _ Hv H1).
    apply step_Ok in H1 as (r & l & upd & _ & _ & _ & -> & _). simpl in *.
    split; [lia|done].
Qed.

(** C2, as the code has it.  The tags are not assigned in increasing order
    of the fraction: the quarters are [mid1], [mid2], [mid3] and the odd
    eighths are [mmid1], [mmid2], [mmid3], [mend].  At the value [s] of
    [global_step], the tag [mmid1] is written iff [s = total // 8], [mid1]
    iff [s = total // 4], [mmid2] iff [s = total * 3 // 8], [mid2] iff
    [s = total // 2], [mmid3] iff [s = total * 5 // 8], [mid3] iff
    [s = total * 3 // 4] and [mend] iff [s = total * 7 // 8]. *)
Theorem C2_phase_tag_assignment (total s : nat) :
  ("mmid1" ∈ Checkpoint.phase_tags total s ↔ s = total / 8) ∧
  ("mid1" ∈ Checkpoint.phase_tags total s ↔ s = total / 4) ∧
  ("mmid2" ∈ Checkpoint.phase_tags total s ↔ s = total * 3 / 8) ∧
  ("mid2" ∈ Checkpoint.phase_tags total s ↔ s = total / 2) ∧
  ("mmid3" ∈ Checkpoint.phase_tags total s ↔ s = total * 5 / 8) ∧
  ("mid3" ∈ Checkpoint.phase_tags total s ↔ s = total * 3 / 4) ∧
  ("mend" ∈ Checkpoint.phase_tags total s ↔ s = total * 7 / 8).
Proof.
  rewrite !phase_tags_spec. repeat split; intros H;
    try (destruct H as [[? ?]|[[? ?]|[[? ?]|[[? ?]|[[? ?]|[[? ?]|[? ?]]]]]]];
         done); tauto.
Qed.

(** C2 as stated fails: with 100 steps the save at [floor(100/4) = 25] is
    tagged [mid1], not [mmid2] as the increasing order would have it. *)
Lemma C2_increasing_order_counterexample :
  (2, "mmid2") ∈ spec_increasing_order_labels ∧
  Checkpoint.phase_tags 100 (100 * 2 / 8) = ["mid1"] ∧
  ¬ (∀ k tag, (k, tag) ∈ spec_increasing_order_labels →
              tag ∈ Checkpoint.phase_tags 100 (100 * k / 8)).
Proof.
  split; [compute_done|]. split; [done|].
  intros H. specialize (H 2 "mmid2"). revert H. compute_done.
Qed.

(** ** The end of an epoch *)

Lemma epoch_report_saved_paths results :
  saved_paths (trace (Trainer.epoch_report results)) = [].
Proof.
  unfold Trainer.epoch_report, mbind, M_bind, lift, emit. simpl.
  repeat (case_match; simpl; try done).
Qed.

Lemma train_epoch_Ok reduce_dict tr rv epoch loader r :
  outcome (Trainer.train_epoch reduce_dict tr rv epoch loader) = Ok r →
  ∃ st,
    outcome (Trainer.loop tr epoch (length loader)
               {| Trainer.results := rv;
                  Trainer.epoch_results :=
                    Trainer.init_epoch_results
                      (Args.LOSSES_NAME (Trainer.args tr));
                  Trainer.global_step := 0 |} 0 loader) = Ok st ∧
    r = Some (reduce_dict (Trainer.epoch_results st)) ∧
    (Trainer.verbose tr = true →
     outcome (Trainer.epoch_report (reduce_dict (Trainer.epoch_results st)))
     = Ok tt) ∧
    saved_paths (trace (Trainer.train_epoch reduce_dict tr rv epoch loader))
    = saved_paths
        (trace (Trainer.loop tr epoch (length loader)
                  {| Trainer.results := rv;
                     Trainer.epoch_results :=
                       Trainer.init_epoch_results
                         (Args.LOSSES_NAME (Trainer.args tr));
                     Trainer.global_step := 0 |} 0 loader)) ++
      saved_paths (Checkpoint.saves (Trainer.verbose tr) (Trainer.args tr)
                     epoch ["end"]).
Proof.
  unfold Trainer.train_epoch. intros H.
  apply M_bind_inv in H as (st & H1 & H & ->).
  apply M_bind_inv in H as ([] & H2 & H & ->).
  apply M_bind_inv in H as ([] & H3 & H & ->).
  simpl in H. simplify_eq. exists st. split; [done|]. split; [done|]. split.
  - intros Hv. by rewrite Hv in H2.
  - rewrite !saved_paths_app. simpl. rewrite app_nil_r. f_equal.
    destruct (Trainer.verbose tr); [|done].
    by rewrite epoch_report_saved_paths.
Qed.

Lemma NoDup_phase_tags_end total s :
  NoDup (Checkpoint.phase_tags total s ++ ["end"]).
Proof.
  unfold Checkpoint.phase_tags, Checkpoint.tag_if.
  repeat case_match; compute_done.
Qed.

(** C3.  In an epoch that completes on the lead process, the checkpoint
    files written are, in order: for each value [s = 1 .. total] of the
    1-based step counter, the files of the phase tags due at [s]; then,
    after the final step, the file tagged [end].  A phase tag is due at [s]
    iff [s] is the floor of [total * f] for an [f] among 1/8, 1/4, 3/8, 1/2,
    5/8, 3/4, 7/8; fractions with the same floor all fire, and the files
    written at one step have distinct names.  With 100 steps the steps with
    a save are exactly 12, 25, 37, 50, 62, 75, 87 and 100. *)
Theorem C3_checkpoint_due_steps reduce_dict tr rv epoch loader r :
  Trainer.verbose tr = true →
  outcome (Trainer.train_epoch reduce_dict tr rv epoch loader) = Ok r →
  let total := length loader in
  let file := Checkpoint.name (Trainer.args tr) (epoch + 1) in
  saved_paths (trace (Trainer.train_epoch reduce_dict tr rv epoch loader))
  = flat_map (λ s, file <$> Checkpoint.phase_tags total s) (seq 1 total)
    ++ [file "end"] ∧
  (∀ s, Checkpoint.phase_tags total s ≠ [] ↔
        s = total / 8 ∨ s = total / 4 ∨ s = total * 3 / 8 ∨ s = total / 2 ∨
        s = total * 5 / 8 ∨ s = total * 3 / 4 ∨ s = total * 7 / 8) ∧
  (∀ s, NoDup (file <$> Checkpoint.phase_tags total s ++ ["end"])) ∧
  filter (λ s, Checkpoint.phase_tags 100 s ≠ [] ∨ s = 100) (seq 1 100)
  = [12; 25; 37; 50; 62; 75; 87; 100].
Proof.
  intros Hv H total file.
  apply train_epoch_Ok in H as (st & Hloop & _ & _ & ->).
  apply (loop_saved_paths _ _ _ _ _ _ _ Hv) in Hloop as [_ ->].
  rewrite Hv, saved_paths_saves. simpl.
  split; [done|]. split; [apply phase_tags_nonempty|]. split.
  - intros s. apply (@NoDup_fmap_2 _ _ file (name_inj _ _)).
    apply NoDup_phase_tags_end.
  - by vm_compute.
Qed.

Lemma C3_checkpoint_due_steps_witness :
  ∃ r,
    outcome (Trainer.train_epoch id Sample.tr None 0 Sample.loader) = Ok r ∧
    saved_paths (trace (Trainer.train_epoch id Sample.tr None 0 Sample.loader))
    = ["flan_pubmed_1_8e-05_8_PubMed_mid2.pth";
       "flan_pubmed_1_8e-05_8_PubMed_mid3.pth";
       "flan_pubmed_1_8e-05_8_PubMed_mmid3.pth";
       "flan_pubmed_1_8e-05_8_PubMed_mend.pth";
       "flan_pubmed_1_8e-05_8_PubMed_end.pth"].
Proof.
  eexists. split; [vm_compute; reflexivity|].
  refine (eq_trans (proj1 (C3_checkpoint_due_steps id Sample.tr None 0
                             Sample.loader _ eq_refl _)) _);
    [vm_compute; reflexivity|].
  vm_compute. reflexivity.
Defined.

(** ** Testing the saved checkpoints *)

Lemma foldl_M_app {A B} (f : A → B → M A) l1 : ∀ a l2,
  foldl_M f a (l1 ++ l2) = foldl_M f a l1 ≫= λ a', foldl_M f a' l2.
Proof.
  induction l1 as [|x l1 IH]; intros a l2; simpl.
  - unfold mbind, M_bind. simpl. by destruct (foldl_M f a l2).
  - unfold mbind, M_bind in *. destruct (f a x) as [tr [a'|e]]; simpl; [|done].
    rewrite IH. destruct (outcome (foldl_M f a' l1)); simpl; [|done].
    by rewrite app_assoc.
Qed.

Lemma ckpt_path_Ok a i : Trainer.ckpt_path a i = Ok (spec_slot_file a i).
Proof.
  unfold Trainer.ckpt_path, spec_slot_file, spec_slot_tag.
  pose proof (Nat.mod_upper_bound (i + 1) 4).
  destruct ((i + 1) mod 4) as [|[|[|[|]]]]; simpl; try done; lia.
Qed.

Section TestProperties.

Variable load : string → result unit.
Variable g_step : string → Trainer.batch → list string.
Variable new_reduce_dict : gmap string Z → gmap string pyval.
Variable len_transductive : Z.
Variable tr : Trainer.t.
Variable val_list : gmap string (list (list string)).
Variable val_loader : list Trainer.batch.

Lemma test_slot_loaded i :
  loaded_paths (trace (Trainer.test_slot load g_step new_reduce_dict
                         len_transductive tr val_list val_loader i))
  = [spec_slot_file (Trainer.args tr) i].
Proof.
  unfold Trainer.test_slot. rewrite ckpt_path_Ok.
  unfold mbind, M_bind, lift, emit. simpl.
  repeat (case_match; simpl; try done).
Qed.

Lemma test_slot_load_raises i e :
  load (spec_slot_file (Trainer.args tr) i) = Raise e →
  Trainer.test_slot load g_step new_reduce_dict len_transductive tr val_list
    val_loader i
  = MkM [LoadCheckpoint (spec_slot_file (Trainer.args tr) i)] (Raise e).
Proof.
  intros Hm. unfold Trainer.test_slot. rewrite ckpt_path_Ok.
  unfold mbind, M_bind, lift, emit. simpl. by rewrite Hm.
Qed.

Lemma test_slots_loaded l :
  let run := foldl_M (λ _ i, Trainer.test_slot load g_step new_reduce_dict
                               len_transductive tr val_list val_loader i)
                     tt l in
  loaded_paths (trace run) `prefix_of` spec_slot_file (Trainer.args tr) <$> l ∧
  (∀ u, outcome run = Ok u →
        loaded_paths (trace run) = spec_slot_file (Trainer.args tr) <$> l).
Proof.
  induction l as [|i l [IH1 IH2]]; simpl; [split; [done|done]|].
  pose proof (test_slot_loaded i) as Hi.
  unfold mbind, M_bind.
  destruct (outcome (Trainer.test_slot _ _ _ _ _ _ _ i)) as [[]|e] eqn:E;
    simpl.
  - rewrite loaded_paths_app, Hi. simpl. split.
    + by apply prefix_cons.
    + intros u Hu. f_equal. by apply (IH2 u).
  - rewrite Hi. split; [|done]. apply prefix_cons, prefix_nil.
Qed.

Lemma test_slots_stop_at l1 i l2 e :
  load (spec_slot_file (Trainer.args tr) i) = Raise e →
  let run := foldl_M (λ _ i, Trainer.test_slot load g_step new_reduce_dict
                               len_transductive tr val_list val_loader i)
                     tt (l1 ++ i :: l2) in
  (∃ e', outcome run = Raise e') ∧
  loaded_paths (trace run)
    `prefix_of` spec_slot_file (Trainer.args tr) <$> (l1 ++ [i]).
Proof.
  intros Hm. simpl. rewrite foldl_M_app.
  destruct (test_slots_loaded l1) as [Hp Hok]. simpl in Hp, Hok.
  destruct (outcome (foldl_M _ tt l1)) as [[]|e1] eqn:E.
  - rewrite (M_bind_Ok _ _ _ E). simpl.
    rewrite (test_slot_load_raises _ _ Hm). unfold mbind, M_bind. simpl.
    split; [by eexists|].
    rewrite loaded_paths_app, (Hok tt eq_refl), fmap_app. done.
  - rewrite (M_bind_Raise _ _ _ E). simpl.
    split; [by eexists|]. rewrite fmap_app.
    by apply prefix_app_r.
Qed.

End TestProperties.

Lemma div_mod_4 e r : r < 4 → (4 * e + r) / 4 = e ∧ (4 * e + r) mod 4 = r.
Proof.
  intros Hr. split; symmetry.
  - by apply (Nat.div_unique _ 4 e r).
  - by apply (Nat.mod_unique _ 4 e r).
Qed.

Lemma spec_slot_file_train a e :
  spec_slot_file a (4 * e) = Checkpoint.name a (e + 1) "mid1" ∧
  spec_slot_file a (4 * e + 1) = Checkpoint.name a (e + 1) "mid2" ∧
  spec_slot_file a (4 * e + 2) = Checkpoint.name a (e + 1) "mid3" ∧
  spec_slot_file a (4 * e + 3) = Checkpoint.name a (e + 1) "end".
Proof.
  assert (H : ∀ r, r < 4 →
            spec_slot_file a (4 * e + r)
            = Checkpoint.name a (e + 1)
                (match r with
                 | 0 => "mid1" | 1 => "mid2" | 2 => "mid3" | _ => "end"
                 end)).
  { intros r Hr. unfold spec_slot_file, spec_slot_tag, Checkpoint.name.
    destruct (div_mod_4 e r Hr) as [-> _].
    destruct (decide (r = 3)) as [->|].
    - replace (4 * e + 3 + 1) with (4 * (e + 1) + 0) by lia.
      by destruct (div_mod_4 (e + 1) 0) as [_ ->]; [lia|].
    - replace (4 * e + r + 1) with (4 * e + (r + 1)) by lia.
      destruct (div_mod_4 e (r + 1)) as [_ ->]; [lia|].
      by destruct r as [|[|[|]]]; [..|lia]. }
  rewrite <- (H 0), <- (H 1), <- (H 2), <- (H 3) by lia.
  by rewrite Nat.add_0_r.
Qed.

(** C7.  [Trainer.test] visits the slots [0 .. 4 * epoch_count - 1] in
    increasing order.  Slot [i] loads the file of epoch [i // 4 + 1] tagged
    [mid1], [mid2], [mid3] or [end] as [(i + 1) mod 4] is 1, 2, 3 or 0, named
    [flan_pubmed_<epoch>_<lr>_8_<split>_<tag>.pth]; these are the names
    under which training epoch [e] writes its quarter and end checkpoints.
    The files loaded are always an initial segment of this sequence, and the
    whole sequence when the run completes, which needs every file to exist.
    At a slot whose file is missing [load_checkpoint] raises: the run ends
    with an exception and loads no later slot. *)
Theorem C7_test_slots files g_step new_reduce_dict len_transductive tr
    val_list val_loader :
  let a := Trainer.args tr in
  let run := Trainer.test (load_checkpoint files) g_step new_reduce_dict
               len_transductive tr val_list val_loader in
  let slots := seq 0 (4 * Args.epoch a) in
  (∀ i, Trainer.ckpt_path a i = Ok (spec_slot_file a i)) ∧
  (∀ e, spec_slot_file a (4 * e) = Checkpoint.name a (e + 1) "mid1" ∧
        spec_slot_file a (4 * e + 1) = Checkpoint.name a (e + 1) "mid2" ∧
        spec_slot_file a (4 * e + 2) = Checkpoint.name a (e + 1) "mid3" ∧
        spec_slot_file a (4 * e + 3) = Checkpoint.name a (e + 1) "end") ∧
  length slots = 4 * Args.epoch a ∧
  loaded_paths (trace run) `prefix_of` spec_slot_file a <$> slots ∧
  (∀ i, i < 4 * Args.epoch a → spec_slot_file a i ∉ files →
        Trainer.test_slot (load_checkpoint files) g_step new_reduce_dict
          len_transductive tr val_list val_loader i
        = MkM [LoadCheckpoint (spec_slot_file a i)]
              (Raise (FileNotFoundError (spec_slot_file a i))) ∧
        (∃ e, outcome run = Raise e) ∧
        loaded_paths (trace run)
          `prefix_of` spec_slot_file a <$> seq 0 (S i)) ∧
  (∀ u, outcome run = Ok u →
        loaded_paths (trace run) = spec_slot_file a <$> slots ∧
        ∀ i, i < 4 * Args.epoch a → spec_slot_file a i ∈ files).
Proof.
  intros a run slots.
  assert (Hmiss : ∀ i, i < 4 * Args.epoch a → spec_slot_file a i ∉ files →
            Trainer.test_slot (load_checkpoint files) g_step new_reduce_dict
              len_transductive tr val_list val_loader i
            = MkM [LoadCheckpoint (spec_slot_file a i)]
                  (Raise (FileNotFoundError (spec_slot_file a i))) ∧
            (∃ e, outcome run = Raise e) ∧
            loaded_paths (trace run)
              `prefix_of` spec_slot_file a <$> seq 0 (S i)).
  { intros i Hi Hm.
    assert (Hl : load_checkpoint files (spec_slot_file a i)
                 = Raise (FileNotFoundError (spec_slot_file a i))).
    { unfold load_checkpoint. by rewrite bool_decide_eq_false_2. }
    split; [by apply test_slot_load_raises|].
    unfold run, Trainer.test.
    replace (seq 0 (4 * Args.epoch (Trainer.args tr)))
      with (seq 0 i ++ i :: seq (S i) (4 * Args.epoch a - S i)).
    - replace (seq 0 (S i)) with (seq 0 i ++ [i]) by (by rewrite seq_S).
      by eapply test_slots_stop_at.
    - change (i :: seq (S i) (4 * Args.epoch a - S i))
        with (seq (0 + i) (S (4 * Args.epoch a - S i))).
      rewrite <- seq_app. f_equal. unfold a in *. lia. }
  split; [apply ckpt_path_Ok|]. split; [apply spec_slot_file_train|].
  split; [apply length_seq|]. split; [apply test_slots_loaded|].
  split; [exact Hmiss|].
  intros u Hu. split; [by eapply test_slots_loaded|].
  intros i Hi. destruct (decide (spec_slot_file a i ∈ files)) as [|Hm]; [done|].
  destruct (Hmiss i Hi Hm) as (_ & [e He] & _). congruence.
Qed.

Lemma C7_test_slots_witness :
  ∃ e, outcome (Trainer.test
                  (load_checkpoint {[ "flan_pubmed_1_8e-05_8_PubMed_mid1.pth" ]})
                  (λ _ _, ["x"; "YES"]) (λ d, VInt <$> d) 10 Sample.tr
                  Sample.val_list [Sample.b]) = Raise e.
Proof.
  refine (proj1 (proj2 (proj1 (proj2 (proj2 (proj2 (proj2
            (C7_test_slots {[ "flan_pubmed_1_8e-05_8_PubMed_mid1.pth" ]}
               (λ _ _, ["x"; "YES"]) (λ d, VInt <$> d) 10 Sample.tr
               Sample.val_list [Sample.b]))))) 1 _ _))).
  - vm_compute. lia.
  - vm_compute. intros H. discriminate H.
Defined.

(** ** Strings *)

Lemma string_app_assoc (s1 s2 s3 : string) :
  (s1 +:+ s2) +:+ s3 = s1 +:+ s2 +:+ s3.
Proof.
  induction s1 as [|c s1 IH]; [done|]. exact (f_equal (String c) IH).
Qed.

Lemma list_ascii_of_string_app (s1 s2 : string) :
  String.list_ascii_of_string (s1 +:+ s2)
  = String.list_ascii_of_string s1 ++ String.list_ascii_of_string s2.
Proof.
  induction s1 as [|c s1 IH]; [done|]. exact (f_equal (cons c) IH).
Qed.

Lemma list_ascii_of_string_inj (s1 s2 : string) :
  String.list_ascii_of_string s1 = String.list_ascii_of_string s2 → s1 = s2.
Proof.
  intros H. rewrite <- (String.string_of_list_ascii_of_string s1),
    <- (String.string_of_list_ascii_of_string s2). by f_equal.
Qed.

Lemma string_app_inv_r (s1 s2 t : string) : s1 +:+ t = s2 +:+ t → s1 = s2.
Proof.
  intros H. apply list_ascii_of_string_inj.
  apply (f_equal String.list_ascii_of_string) in H.
  rewrite !list_ascii_of_string_app in H. by apply app_inv_tail in H.
Qed.

Lemma endswith_app (s suf : string) : endswith (s +:+ suf) suf = true.
Proof.
  unfold endswith. apply bool_decide_eq_true.
  rewrite list_ascii_of_string_app. by apply suffix_app_r.
Qed.

Lemma endswith_last_char (s1 : string) (c d : ascii) :
  c ≠ d →
  endswith (s1 +:+ String c "") (String d "") = false.
Proof.
  intros Hne. unfold endswith. apply bool_decide_eq_false.
  rewrite list_ascii_of_string_app. simpl. intros H.
  by apply (suffix_snoc_inv_1 _ _ []) in H.
Qed.

(** ** Scoring a decoded example *)

Lemma score_not_classification b results ACC i task temp_id :
  Trainer.task b !! i = Some task →
  Trainer.temp_ids b !! i = Some temp_id →
  task ≠ "classification" →
  Trainer.score b results ACC i = Ok ACC.
Proof.
  intros Ht Hid Hne. unfold Trainer.score, index. rewrite Ht, Hid. simpl.
  by rewrite bool_decide_eq_false_2.
Qed.

Lemma score_classification b results ACC i temp_id cate prediction target :
  Trainer.task b !! i = Some "classification" →
  Trainer.temp_ids b !! i = Some temp_id →
  Trainer.cate b !! i = Some cate →
  results !! i = Some prediction →
  Trainer.target_text b !! i = Some target →
  Trainer.score b results ACC i
  = if (endswith temp_id "2" || endswith temp_id "4" ||
        endswith temp_id "6" || endswith temp_id "7")
       && bool_decide (lower prediction = target)
    then match ACC !! ((temp_id +:+ "-") +:+ cate) with
         | Some old => Ok (<[(temp_id +:+ "-") +:+ cate := (old + 1)%Z]> ACC)
         | None => Raise (KeyError ((temp_id +:+ "-") +:+ cate))
         end
    else Ok ACC.
Proof.
  intros Ht Hid Hc Hp Htt. unfold Trainer.score, index, getitem.
  rewrite Ht, Hid. simpl. rewrite Hc. simpl.
  destruct (endswith temp_id "2" || endswith temp_id "4" ||
            endswith temp_id "6" || endswith temp_id "7"); simpl; [|done].
  rewrite Hp, Htt. simpl.
  destruct (bool_decide (lower prediction = target)); simpl; [|done].
  by destruct (ACC !! _).
Qed.

(** C1, as the code has it.  For a batch example tagged [classification]
    whose template id ends in 2, 4, 6 or 7, the lower-cased predicted text is
    compared for equality with the raw target text, which is not
    lower-cased.  On a match the counter keyed [<template-id>-<category>],
    when it exists, is incremented by exactly 1 and no other counter
    changes (when it does not exist the lookup raises [KeyError]); without
    a match, or for a template id with another last character, no counter
    changes.  Predicted ["Yes"] against target ["yes"] is a match. *)
Theorem C1_classification_scoring b results ACC i temp_id cate prediction
    target :
  Trainer.task b !! i = Some "classification" →
  Trainer.temp_ids b !! i = Some temp_id →
  Trainer.cate b !! i = Some cate →
  results !! i = Some prediction →
  Trainer.target_text b !! i = Some target →
  let key := (temp_id +:+ "-") +:+ cate in
  let scored := endswith temp_id "2" || endswith temp_id "4" ||
                endswith temp_id "6" || endswith temp_id "7" in
  (scored = true → lower prediction = target →
   ∀ old, ACC !! key = Some old →
     ∃ ACC', Trainer.score b results ACC i = Ok ACC' ∧
             ACC' !! key = Some (old + 1)%Z ∧
             ∀ k, k ≠ key → ACC' !! k = ACC !! k) ∧
  (scored = true → lower prediction = target → ACC !! key = None →
   Trainer.score b results ACC i = Raise (KeyError key)) ∧
  (scored = true → lower prediction ≠ target →
   Trainer.score b results ACC i = Ok ACC) ∧
  (scored = false → Trainer.score b results ACC i = Ok ACC) ∧
  lower "Yes" = "yes".
Proof.
  intros Ht Hid Hc Hp Htt key scored.
  rewrite (score_classification _ _ ACC _ _ _ _ _ Ht Hid Hc Hp Htt).
  fold key scored. repeat split.
  - intros -> Hm old Hold. rewrite bool_decide_eq_true_2, Hold by done. simpl.
    eexists. split; [done|]. split; [apply lookup_insert_eq|].
    intros k Hk. by apply lookup_insert_ne.
  - intros -> Hm Hnone. by rewrite bool_decide_eq_true_2, Hnone.
  - intros -> Hm. by rewrite bool_decide_eq_false_2.
  - by intros ->.
Qed.

Lemma C1_classification_scoring_witness :
  ∃ ACC',
    Trainer.score Sample.b ["x"; "Yes"] {[ "2-1-2-2-transductive" := 0%Z ]} 1
    = Ok ACC' ∧
    ACC' !! "2-1-2-2-transductive" = Some 1%Z.
Proof.
  pose proof (proj1 (C1_classification_scoring Sample.b ["x"; "Yes"]
                       {[ "2-1-2-2-transductive" := 0%Z ]} 1 "2-1-2-2"
                       "transductive" "Yes" "yes"
                       eq_refl eq_refl eq_refl eq_refl eq_refl)) as H.
  destruct (H ltac:(vm_compute; reflexivity) ltac:(vm_compute; reflexivity)
              0%Z ltac:(vm_compute; reflexivity)) as (ACC' & Hs & Hk & _).
  exists ACC'. split; [exact Hs|exact Hk].
Defined.

(** C1 as stated fails: predicted ["yes"] against target ["Yes"] is equal
    up to case, yet the example is not scored, because only the prediction
    is lower-cased. *)
Lemma C1_case_insensitive_counterexample :
  let b := {| Trainer.target_ids := []; Trainer.seq_len := 0;
              Trainer.loss_weights := [];
              Trainer.task := ["classification"];
              Trainer.temp_ids := ["2-1-2-2"];
              Trainer.cate := ["transductive"];
              Trainer.target_text := ["Yes"] |} in
  spec_case_insensitive_eq "yes" "Yes" = true ∧
  Trainer.score b ["yes"] {[ "2-1-2-2-transductive" := 0%Z ]} 0
  = Ok {[ "2-1-2-2-transductive" := 0%Z ]}.
Proof. split; vm_compute; reflexivity. Qed.

(** ** The counters of an evaluation pass *)

Lemma elem_of_foldl_app {A} (x : A) (ls : list (list A)) : ∀ acc,
  x ∈ foldl (λ templates tems, templates ++ tems) acc ls
  ↔ x ∈ acc ∨ ∃ l, l ∈ ls ∧ x ∈ l.
Proof.
  induction ls as [|l ls IH]; intros acc; simpl.
  - split; [by left|]. intros [H|(l & Hl & _)]; [done|].
    by apply elem_of_nil in Hl.
  - rewrite IH, elem_of_app. split.
    + intros [[H|H]|(l' & Hl' & Hx)]; [by left| |].
      * right. exists l. split; [apply elem_of_cons; by left|done].
      * right. exists l'. split; [apply elem_of_cons; by right|done].
    + intros [H|(l' & Hl' & Hx)]; [by left; left|].
      apply elem_of_cons in Hl' as [->|Hl']; [by left; right|].
      right. by exists l'.
Qed.

Lemma zero_counters_lookup (templates : list string) :
  ∀ (ACC : gmap string Z) k,
  foldl (λ (ACC : gmap string Z) thing,
           <[(thing +:+ "-") +:+ "transductive" := 0%Z]> ACC) ACC templates
    !! k
  = if bool_decide (k ∈ (λ thing, (thing +:+ "-") +:+ "transductive")
                          <$> templates)
    then Some 0%Z else ACC !! k.
Proof.
  induction templates as [|t ts IH]; intros ACC k; simpl; [done|].
  rewrite IH. case_bool_decide as H1.
  - rewrite bool_decide_eq_true_2; [done|]. apply elem_of_cons; by right.
  - destruct (decide (k = (t +:+ "-") +:+ "transductive")) as [->|Hne].
    + rewrite lookup_insert_eq, bool_decide_eq_true_2; [done|].
      apply elem_of_cons; by left.
    + rewrite lookup_insert_ne by done.
      rewrite bool_decide_eq_false_2; [done|].
      intros [?|?]%elem_of_cons; done.
Qed.

(** The counters that [evaluate_epoch] starts from. *)
Lemma init_ACC_lookup a val_list k :
  Trainer.init_ACC a val_list !! k
  = if bool_decide (Args.train a = "PubMed") then
      match val_list !! "classification" with
      | Some tems =>
          if bool_decide (k ∈ (λ thing, (thing +:+ "-") +:+ "transductive")
                                <$> foldl (λ templates tems, templates ++ tems)
                                      [] tems)
          then Some 0%Z else None
      | None => None
      end
    else None.
Proof.
  unfold Trainer.init_ACC.
  assert (Hgen : ∀ l (ACC : gmap string Z),
    NoDup l.*1 →
    foldl (λ (ACC : gmap string Z) (kv : string * list (list string)),
             if bool_decide (kv.1 = "classification") then
               if bool_decide (Args.train a = "PubMed") then
                 foldl (λ (ACC : gmap string Z) thing,
                          <[(thing +:+ "-") +:+ "transductive" := 0%Z]> ACC)
                       ACC
                       (foldl (λ templates tems, templates ++ tems) [] kv.2)
               else ACC
             else ACC) ACC l !! k
    = if bool_decide (Args.train a = "PubMed") then
        match (list_to_map l : gmap string (list (list string)))
                !! "classification" with
        | Some tems =>
            if bool_decide (k ∈ (λ thing, (thing +:+ "-") +:+ "transductive")
                                  <$> foldl (λ templates tems,
                                               templates ++ tems) [] tems)
            then Some 0%Z else ACC !! k
        | None => ACC !! k
        end
      else ACC !! k).
  { induction l as [|[k0 v0] l IH]; intros ACC Hnd.
    - simpl. rewrite lookup_empty. by case_bool_decide.
    - rewrite fmap_cons in Hnd. apply NoDup_cons in Hnd as [Hk0 Hnd].
      rewrite list_to_map_cons. simpl. rewrite IH by done.
      destruct (decide (k0 = "classification")) as [->|Hne].
      + rewrite lookup_insert_eq.
        rewrite (bool_decide_eq_true_2 ("classification" = "classification"))
          by done.
        rewrite (not_elem_of_list_to_map_1 _ _ Hk0).
        case_bool_decide; [|done]. by rewrite zero_counters_lookup.
      + rewrite lookup_insert_ne by done.
        by rewrite (bool_decide_eq_false_2 _ Hne). }
  rewrite Hgen by apply NoDup_fst_map_to_list.
  rewrite list_to_map_to_list, lookup_empty.
  case_bool_decide; [|done]. destruct (val_list !! _); [|done]. done.
Qed.

Lemma counter_key_inj (s1 s2 cate : string) :
  (s1 +:+ "-") +:+ cate = (s2 +:+ "-") +:+ cate → s1 = s2.
Proof. intros H. by do 2 apply string_app_inv_r in H. Qed.

(** When [<template-id>-<category>] is one of the initial keys, the category
    is [transductive] or ends in [-transductive]. *)
Lemma counter_key_collision (temp_id cate thing : string) :
  (temp_id +:+ "-") +:+ cate = (thing +:+ "-") +:+ "transductive" →
  cate = "transductive" ∨ endswith cate "-transductive" = true.
Proof.
  intros H. apply (f_equal String.list_ascii_of_string) in H.
  rewrite !list_ascii_of_string_app in H.
  apply (f_equal reverse) in H. rewrite !reverse_app in H.
  assert (Hc : String.list_ascii_of_string cate
               = reverse (reverse (String.list_ascii_of_string cate)))
    by (by rewrite reverse_involutive).
  remember (reverse (String.list_ascii_of_string cate)) as rc eqn:Erc.
  remember (reverse (String.list_ascii_of_string temp_id)) as rt eqn:Ert.
  remember (reverse (String.list_ascii_of_string thing)) as rth eqn:Erth.
  clear Erc Ert Erth. cbn in H.
  do 12 (destruct rc as [|? rc]; [by simplify_eq/=|]; simplify_eq/=).
  destruct rc as [|? rc]; simplify_eq/=.
  - left. by apply list_ascii_of_string_inj.
  - right. unfold endswith. apply bool_decide_eq_true. rewrite Hc.
    rewrite !reverse_cons, <- !app_assoc. simpl. by apply suffix_app_r.
Qed.

Lemma init_ACC_key_absent a val_list temp_id cate :
  (cate = "transductive" ∧
   ∀ tems tem, val_list !! "classification" = Some tems → tem ∈ tems →
               temp_id ∉ tem) ∨
  (cate ≠ "transductive" ∧ endswith cate "-transductive" = false) ∨
  Args.train a ≠ "PubMed" →
  Trainer.init_ACC a val_list !! ((temp_id +:+ "-") +:+ cate) = None.
Proof.
  intros H. rewrite init_ACC_lookup.
  case_bool_decide as Ht; [|done].
  destruct (val_list !! "classification") as [tems|] eqn:Ev; [|done].
  rewrite bool_decide_eq_false_2; [done|].
  intros (thing & Heq & Hin)%list_elem_of_fmap.
  destruct H as [[-> Habs]|[[Hne Hsuf]|Hnp]]; [| |done].
  - apply counter_key_inj in Heq as ->.
    apply elem_of_foldl_app in Hin as [Hin|(tem & Htem & Hin)].
    + by apply elem_of_nil in Hin.
    + by apply (Habs tems tem).
  - apply counter_key_collision in Heq as [?|?]; congruence.
Qed.

Lemma foldl_result_Ok_inv {A B} (P : A → Prop) (f : A → B → result A) l :
  (∀ a x a', P a → f a x = Ok a' → P a') →
  ∀ a a', P a → foldl_result f a l = Ok a' →
  P a' ∧ ∀ x, x ∈ l → ∃ a1 a2, P a1 ∧ f a1 x = Ok a2.
Proof.
  intros Hf. induction l as [|x l IH]; intros a a' Ha H; simpl in H.
  - simplify_eq. split; [done|]. intros x Hx. by apply elem_of_nil in Hx.
  - apply result_bind_inv in H as (a1 & H1 & H2).
    destruct (IH a1 a' (Hf _ _ _ Ha H1) H2) as [HP Hl].
    split; [done|]. intros y [->|Hy]%elem_of_cons; [|by apply Hl].
    by exists a, a1.
Qed.

Lemma score_dom b results ACC i ACC' :
  Trainer.score b results ACC i = Ok ACC' → dom ACC' = dom ACC.
Proof.
  unfold Trainer.score, index, getitem, mret, result_ret. intros H.
  destruct (Trainer.task b !! i) as [task|]; simpl in H; [|done].
  destruct (Trainer.temp_ids b !! i) as [temp_id|]; simpl in H; [|done].
  case_bool_decide; [|by simplify_eq/=].
  destruct (Trainer.cate b !! i) as [cate|]; simpl in H; [|done].
  destruct (endswith temp_id "2" || endswith temp_id "4" ||
            endswith temp_id "6" || endswith temp_id "7");
    [|by simplify_eq/=].
  destruct (results !! i) as [prediction|]; simpl in H; [|done].
  destruct (Trainer.target_text b !! i) as [target|]; simpl in H; [|done].
  case_bool_decide; [|by simplify_eq/=].
  destruct (ACC !! ((temp_id +:+ "-") +:+ cate)) as [old|] eqn:E;
    simpl in H; [|done].
  simplify_eq. rewrite dom_insert_L. apply elem_of_dom_2 in E. set_solver.
Qed.

Lemma evaluate_batch_dom a g_step st b st' :
  Trainer.evaluate_batch a g_step st b = Ok st' → dom st'.2 = dom st.2.
Proof.
  unfold Trainer.evaluate_batch. intros H.
  apply result_bind_inv in H as (results & _ & H).
  apply result_bind_inv in H as (ACC & H & Hst).
  unfold mret, result_ret in Hst. simplify_eq. simpl.
  apply (foldl_result_Ok_inv (λ ACC, dom ACC = dom st.2)) in H as [H _];
    [done| |done].
  intros ACC1 x ACC2 HACC1 Hs. apply score_dom in Hs. congruence.
Qed.

(** Scoring an example whose counter does not exist ends the pass. *)
Lemma evaluate_epoch_missing_key a val_list g_step val_loader b i temp_id
    cate prediction target :
  Args.distributed a = true →
  b ∈ val_loader →
  Trainer.task b !! i = Some "classification" →
  Trainer.temp_ids b !! i = Some temp_id →
  Trainer.cate b !! i = Some cate →
  g_step b !! i = Some prediction →
  Trainer.target_text b !! i = Some target →
  endswith temp_id "2" || endswith temp_id "4" ||
  endswith temp_id "6" || endswith temp_id "7" = true →
  lower prediction = target →
  Trainer.init_ACC a val_list !! ((temp_id +:+ "-") +:+ cate) = None →
  ∃ e, Trainer.evaluate_epoch a val_list g_step val_loader = Raise e.
Proof.
  intros Hd Hb Ht Hid Hc Hp Htt Hs Hm Hnone.
  destruct (Trainer.evaluate_epoch a val_list g_step val_loader) as [ACC'|e]
    eqn:E; [|by exists e].
  exfalso. unfold Trainer.evaluate_epoch in E.
  apply result_bind_inv in E as (st & E & _).
  apply (foldl_result_Ok_inv
           (λ st, dom st.2 = dom (Trainer.init_ACC a val_list))) in E
    as [_ E]; [| |done].
  - destruct (E b Hb) as (st1 & st2 & Hdom & Hb1).
    unfold Trainer.evaluate_batch in Hb1. rewrite Hd in Hb1. simpl in Hb1.
    apply result_bind_inv in Hb1 as (ACC & Hb1 & _).
    apply (foldl_result_Ok_inv
             (λ ACC, dom ACC = dom (Trainer.init_ACC a val_list))) in Hb1
      as [_ Hb1]; [| |done].
    + destruct (Hb1 i) as (ACC1 & ACC2 & Hdom1 & Hsc).
      { apply elem_of_seq. apply lookup_lt_Some in Hp. lia. }
      rewrite (score_classification _ _ _ _ _ _ _ _ Ht Hid Hc Hp Htt) in Hsc.
      rewrite Hs, bool_decide_eq_true_2 in Hsc by done. simpl in Hsc.
      assert (ACC1 !! ((temp_id +:+ "-") +:+ cate) = None) as Hn.
      { apply not_elem_of_dom. rewrite Hdom1. by apply not_elem_of_dom. }
      by rewrite Hn in Hsc.
    + intros ACC1 x ACC2 H1 H2. apply score_dom in H2. congruence.
  - intros st1 x st2 H1 H2. apply evaluate_batch_dom in H2. congruence.
Qed.

Lemma init_ACC_Some a val_list k v :
  Trainer.init_ACC a val_list !! k = Some v →
  v = 0%Z ∧ Args.train a = "PubMed" ∧ endswith k "-transductive" = true ∧
  ∃ tems tem thing,
    val_list !! "classification" = Some tems ∧ tem ∈ tems ∧ thing ∈ tem ∧
    k = (thing +:+ "-") +:+ "transductive".
Proof.
  rewrite init_ACC_lookup. case_bool_decide as Ht; [|done].
  destruct (val_list !! "classification") as [tems|] eqn:Ev; [|done].
  case_bool_decide as Hk; [|done]. intros [= <-].
  apply list_elem_of_fmap in Hk as (thing & -> & Hin).
  apply elem_of_foldl_app in Hin as [Hin|(tem & Htem & Hin)];
    [by apply elem_of_nil in Hin|].
  split; [done|]. split; [done|]. split.
  - rewrite string_app_assoc. apply endswith_app.
  - by exists tems, tem, thing.
Qed.

Lemma init_ACC_declared a val_list tems tem thing :
  Args.train a = "PubMed" →
  val_list !! "classification" = Some tems → tem ∈ tems → thing ∈ tem →
  Trainer.init_ACC a val_list !! ((thing +:+ "-") +:+ "transductive")
  = Some 0%Z.
Proof.
  intros Ht Hv Htem Hin. rewrite init_ACC_lookup, Hv.
  rewrite (bool_decide_eq_true_2 _ Ht), bool_decide_eq_true_2; [done|].
  apply list_elem_of_fmap. exists thing. split; [done|].
  apply elem_of_foldl_app. right. by exists tem.
Qed.

(** C9, as the code has it.  The counters that [evaluate_epoch] starts from
    are all zero and exist only when the training split is [PubMed]; their
    keys are exactly [<template-id>-transductive] for the template ids of
    the [classification] entry of the task list.  Scoring a matching
    classification example whose key [<template-id>-<category>] is not among
    them raises [KeyError] and the evaluation pass ends with an exception;
    no counter is created.  The key is absent whenever the category is
    [transductive] and the template id is not declared, or the category is
    neither [transductive] nor ends in [-transductive], or the split is not
    [PubMed]. *)
Theorem C9_counter_keys a val_list g_step val_loader b i temp_id cate
    prediction target :
  Args.distributed a = true →
  b ∈ val_loader →
  Trainer.task b !! i = Some "classification" →
  Trainer.temp_ids b !! i = Some temp_id →
  Trainer.cate b !! i = Some cate →
  g_step b !! i = Some prediction →
  Trainer.target_text b !! i = Some target →
  endswith temp_id "2" || endswith temp_id "4" ||
  endswith temp_id "6" || endswith temp_id "7" = true →
  lower prediction = target →
  let key := (temp_id +:+ "-") +:+ cate in
  (∀ k v, Trainer.init_ACC a val_list !! k = Some v →
          v = 0%Z ∧ Args.train a = "PubMed" ∧
          endswith k "-transductive" = true ∧
          ∃ tems tem thing,
            val_list !! "classification" = Some tems ∧ tem ∈ tems ∧
            thing ∈ tem ∧ k = (thing +:+ "-") +:+ "transductive") ∧
  (∀ tems tem thing,
     Args.train a = "PubMed" → val_list !! "classification" = Some tems →
     tem ∈ tems → thing ∈ tem →
     Trainer.init_ACC a val_list !! ((thing +:+ "-") +:+ "transductive")
     = Some 0%Z) ∧
  (Trainer.init_ACC a val_list !! key = None →
   (∀ ACC, dom ACC = dom (Trainer.init_ACC a val_list) →
           Trainer.score b (g_step b) ACC i = Raise (KeyError key)) ∧
   ∃ e, Trainer.evaluate_epoch a val_list g_step val_loader = Raise e) ∧
  ((cate = "transductive" ∧
    ∀ tems tem, val_list !! "classification" = Some tems → tem ∈ tems →
                temp_id ∉ tem) ∨
   (cate ≠ "transductive" ∧ endswith cate "-transductive" = false) ∨
   Args.train a ≠ "PubMed" →
   Trainer.init_ACC a val_list !! key = None).
Proof.
  intros Hd Hb Ht Hid Hc Hp Htt Hs Hm key.
  split; [apply init_ACC_Some|]. split; [apply init_ACC_declared|].
  split; [|apply init_ACC_key_absent].
  intros Hnone. split; [|by eapply evaluate_epoch_missing_key].
  intros ACC Hdom.
  rewrite (score_classification _ _ _ _ _ _ _ _ Ht Hid Hc Hp Htt).
  rewrite Hs, bool_decide_eq_true_2 by done. simpl. fold key.
  assert (ACC !! key = None) as ->; [|done].
  apply not_elem_of_dom. rewrite Hdom. by apply not_elem_of_dom.
Qed.

Lemma C9_counter_keys_witness :
  ∃ e, Trainer.evaluate_epoch Sample.a {[ "classification" := [["6-6-6-6"]] ]}
         (λ _, ["x"; "Yes"]) [Sample.b] = Raise e.
Proof.
  refine (proj2 (proj1 (proj2 (proj2
            (C9_counter_keys Sample.a {[ "classification" := [["6-6-6-6"]] ]}
               (λ _, ["x"; "Yes"]) [Sample.b] Sample.b 1 "2-1-2-2"
               "transductive" "Yes" "yes" eq_refl _ eq_refl eq_refl eq_refl
               eq_refl eq_refl _ _))) _)).
  - apply list_elem_of_singleton. reflexivity.
  - vm_compute. reflexivity.
  - vm_compute. reflexivity.
  - vm_compute. reflexivity.
Defined.

(** C9 as stated fails: the category ["2-transductive"] is not
    [transductive] and the template id ["2-1-2"] is not declared, yet their
    key is that of the declared template ["2-1-2-2"], whose counter is
    incremented without any error. *)
Lemma C9_key_collision_counterexample :
  let b := {| Trainer.target_ids := []; Trainer.seq_len := 0;
              Trainer.loss_weights := [];
              Trainer.task := ["classification"];
              Trainer.temp_ids := ["2-1-2"];
              Trainer.cate := ["2-transductive"];
              Trainer.target_text := ["yes"] |} in
  ("2-1-2" ∉ ["6-6-6-6"; "6-6-6-7"; "2-1-2-2"]) ∧
  Trainer.evaluate_epoch Sample.a Sample.val_list (λ _, ["yes"]) [b]
  = Ok (<["2-1-2-2-transductive" := 1%Z]>
          (Trainer.init_ACC Sample.a Sample.val_list)).
Proof. split; [compute_done|]. vm_compute. reflexivity. Qed.

(** ** Gradient accumulation *)

Lemma is_update_step_Ok a i upd :
  Trainer.is_update_step a i = Ok upd →
  Args.gradient_accumulation_steps a ≠ 0%Z ∧
  upd = bool_decide (Z.of_nat i mod Args.gradient_accumulation_steps a = 0)%Z.
Proof.
  unfold Trainer.is_update_step. case_bool_decide; [done|]. by intros [= <-].
Qed.

Lemma filter_optimizer_saves verbose a epoch tags :
  filter is_optimizer_event (Checkpoint.saves verbose a epoch tags) = [].
Proof.
  unfold Checkpoint.saves. destruct verbose; [|done].
  induction tags as [|t l IH]; [done|]. simpl.
  rewrite filter_cons_False; [exact IH|]. simpl. tauto.
Qed.

(** C4, as the code has it.  In a step that completes outside [fp16], the
    scalar loss is divided by [gradient_accumulation_steps] and the backward
    pass runs on the quotient.  Exactly when the 0-based step index is a
    multiple of [gradient_accumulation_steps] (the first step of the epoch,
    then every [gradient_accumulation_steps]-th step after it), the
    gradient norm is clipped iff [clip_grad_norm > 0], then the optimizer is
    stepped, the scheduler is stepped when there is one, and the gradients
    are zeroed.  In every other step there is no optimizer and no scheduler
    step. *)
Theorem C4_update_cadence tr epoch total st i x st' :
  outcome (Trainer.step tr epoch total st i x) = Ok st' →
  Args.fp16 (Trainer.args tr) = false →
  let G := Args.gradient_accumulation_steps (Trainer.args tr) in
  let c := Args.clip_grad_norm (Trainer.args tr) in
  ∃ r l,
    Trainer.current_results tr st x = Ok r ∧ r !! "loss" = Some l ∧
    G ≠ 0%Z ∧
    trace (Trainer.step tr epoch total st i x)
    = [Backward (num l / Qc_of_Z G)%Qc] ++
      (if bool_decide (Z.of_nat i mod G = 0)%Z then
         (if bool_decide (0 < c)%Qc then [ClipGradNorm c] else []) ++
         [OptimStep] ++
         (if Trainer.lr_scheduler tr then [SchedulerStep] else []) ++
         [ZeroGrad]
       else []) ++
      Checkpoint.saves (Trainer.verbose tr) (Trainer.args tr) epoch
        (Checkpoint.phase_tags total (S (Trainer.global_step st))) ∧
    ((Z.of_nat i mod G ≠ 0)%Z →
     filter is_optimizer_event (trace (Trainer.step tr epoch total st i x))
     = []).
Proof.
  intros H Hfp G c.
  apply step_Ok in H as (r & l & upd & Hr & Hl & Hu & _ & Ht).
  apply is_update_step_Ok in Hu as [HG ->]. fold G in Ht.
  exists r, l. split; [done|]. split.
  { unfold getitem in Hl. by destruct (r !! "loss"); simplify_eq. }
  split; [done|].
  rewrite Ht, Hfp. unfold Trainer.update_parameters. rewrite Hfp. simpl.
  fold c. split; [done|].
  intros Hne. rewrite bool_decide_eq_false_2 by done. simpl.
  rewrite filter_cons_False by (simpl; tauto). apply filter_optimizer_saves.
Qed.

Lemma C4_update_cadence_witness :
  ∃ st',
    outcome (Trainer.step Sample.tr 0 2
               {| Trainer.results := None;
                  Trainer.epoch_results :=
                    Trainer.init_epoch_results (Args.LOSSES_NAME Sample.a);
                  Trainer.global_step := 0 |}
               0 (Sample.b, Sample.output_loss)) = Ok st' ∧
    Args.gradient_accumulation_steps Sample.a ≠ 0%Z.
Proof.
  eexists. split; [vm_compute; reflexivity|].
  destruct (C4_update_cadence Sample.tr 0 2
              {| Trainer.results := None;
                 Trainer.epoch_results :=
                   Trainer.init_epoch_results (Args.LOSSES_NAME Sample.a);
                 Trainer.global_step := 0 |}
              0 (Sample.b, Sample.output_loss) _
              ltac:(vm_compute; reflexivity) eq_refl)
    as (r & l & _ & _ & HG & _).
  exact HG.
Defined.

(** C4 as stated fails: with [gradient_accumulation_steps = 2], the first
    step of the epoch steps the optimizer and the scheduler although it is
    not a second step, and the second step steps neither. *)
Lemma C4_every_nth_step_counterexample :
  let st0 := {| Trainer.results := None;
                Trainer.epoch_results :=
                  Trainer.init_epoch_results (Args.LOSSES_NAME Sample.a);
                Trainer.global_step := 0 |} in
  let m0 := Trainer.step Sample.tr 0 2 st0 0 (Sample.b, Sample.output_loss) in
  ∃ st1 st2,
    outcome m0 = Ok st1 ∧
    outcome (Trainer.step Sample.tr 0 2 st1 1 (Sample.b, Sample.output_loss))
    = Ok st2 ∧
    spec_every_nth_step 2 0 = false ∧
    filter is_optimizer_event (trace m0) = [OptimStep; SchedulerStep] ∧
    spec_every_nth_step 2 1 = true ∧
    filter is_optimizer_event
      (trace (Trainer.step Sample.tr 0 2 st1 1
                (Sample.b, Sample.output_loss))) = [].
Proof.
  do 2 eexists.
  split; [vm_compute; reflexivity|]. split; [vm_compute; reflexivity|].
  repeat split; vm_compute; reflexivity.
Qed.

(** ** The per-example loss *)

Lemma chunks_length B : ∀ L flat, length (Tensor.chunks B L flat) = B.
Proof. induction B as [|B IH]; intros L flat; simpl; [done|]. by rewrite IH. Qed.

Lemma chunks_lookup B : ∀ L flat i,
  i < B → Tensor.chunks B L flat !! i = Some (take L (drop (i * L) flat)).
Proof.
  induction B as [|B IH]; intros L flat i Hi; [lia|].
  destruct i as [|i]; simpl; [done|].
  rewrite IH by lia. by rewrite drop_drop.
Qed.

Lemma masked_sum (labels : list Z) : ∀ losses : list Qc,
  length labels = length losses →
  let mask := (λ label : Z, if bool_decide (label ≠ -100)%Z then 1%Qc else 0%Qc)
                <$> labels in
  let valid := (filter (λ p, p.1 ≠ (-100)%Z) (zip labels losses)).*2 in
  Tensor.sum (zip_with Qcmult losses mask) = Tensor.sum valid ∧
  Tensor.sum mask = Qc_of_Z (Z.of_nat (length valid)).
Proof.
  induction labels as [|label labels IH]; intros [|loss losses] Hlen;
    simplify_eq/=.
  - split; [done|]. symmetry. apply Z2Qc_inj_0.
  - destruct (IH losses Hlen) as [IH1 IH2]. rewrite IH1, IH2.
    case_bool_decide as Hl.
    + rewrite filter_cons_True by done. csimpl. split; [ring|].
      rewrite Nat2Z.inj_succ, <- Z.add_1_l, Z2Qc_inj_add, Z2Qc_inj_1. done.
    + rewrite filter_cons_False by (simpl; tauto). split; ring.
Qed.

Lemma clamp_min_count (n : nat) :
  Tensor.clamp_min 1%Qc (Qc_of_Z (Z.of_nat n))
  = Qc_of_Z (Z.max 1 (Z.of_nat n)).
Proof.
  unfold Tensor.clamp_min. case_bool_decide as H.
  - rewrite <- Z2Qc_inj_1 in H. apply Z2Qc_inj_lt in H.
    rewrite Z.max_l by lia. symmetry. apply Z2Qc_inj_1.
  - rewrite <- Z2Qc_inj_1, <- Z2Qc_inj_lt in H. by rewrite Z.max_r by lia.
Qed.

(** C5.  On a batch whose label rows have [L] entries and whose per-token
    loss has [B * L] entries, the loss of example [i] is the sum of the
    per-position losses at the positions whose label is not [-100], divided
    by the number of those positions, the divisor being at least 1; an
    example without any valid position gets the loss 0.  For the labels
    [[t1, -100, t3]] it is the mean of the losses at positions 0 and 2. *)
Theorem C5_example_loss (lm_labels : list (list Z)) (L : nat)
    (output_loss : list Qc) :
  Forall (λ labels, length labels = L) lm_labels →
  length output_loss = length lm_labels * L →
  ∃ loss,
    Trainer.example_loss (length lm_labels) L lm_labels output_loss = Ok loss ∧
    length loss = length lm_labels ∧
    (∀ i labels,
       lm_labels !! i = Some labels →
       let losses := take L (drop (i * L) output_loss) in
       let valid := (filter (λ p, p.1 ≠ (-100)%Z) (zip labels losses)).*2 in
       loss !! i = Some (Tensor.sum valid
                         / Qc_of_Z (Z.max 1 (Z.of_nat (length valid))))%Qc ∧
       (valid = [] → loss !! i = Some 0%Qc)) ∧
    (∀ t1 t3 l0 l1 l2,
       t1 ≠ (-100)%Z → t3 ≠ (-100)%Z →
       Trainer.example_loss 1 3 [[t1; -100; t3]%Z] [l0; l1; l2]
       = Ok [((l0 + l2) / 2)%Qc]).
Proof.
  intros Hrows Hlen. unfold Trainer.example_loss, Tensor.view.
  rewrite bool_decide_eq_true_2 by done. simpl. eexists. split; [done|].
  assert (Hrow : ∀ i labels,
    lm_labels !! i = Some labels →
    zip_with Qcdiv
      (Tensor.sum <$> zip_with (zip_with Qcmult)
                        (Tensor.chunks (length lm_labels) L output_loss)
                        (Trainer.lm_mask lm_labels))
      (Tensor.clamp_min 1%Qc <$> (Tensor.sum <$> Trainer.lm_mask lm_labels))
      !! i
    = Some (Tensor.sum (filter (λ p, p.1 ≠ (-100)%Z)
                          (zip labels (take L (drop (i * L) output_loss)))).*2
            / Qc_of_Z (Z.max 1 (Z.of_nat (length
                (filter (λ p, p.1 ≠ (-100)%Z)
                   (zip labels (take L (drop (i * L) output_loss)))).*2))))%Qc).
  { intros i labels Hi.
    assert (Hlt : i < length lm_labels) by (by eapply lookup_lt_Some).
    assert (HL : length labels = L).
    { by apply (proj1 (Forall_lookup _ _) Hrows i). }
    assert (Htake : length labels
                    = length (take L (drop (i * L) output_loss))).
    { rewrite length_take, length_drop. nia. }
    destruct (masked_sum labels _ Htake) as [Hs Hc].
    rewrite lookup_zip_with, !list_lookup_fmap, lookup_zip_with.
    rewrite (chunks_lookup _ _ _ _ Hlt). unfold Trainer.lm_mask.
    rewrite list_lookup_fmap, Hi. simpl.
    by rewrite Hs, Hc, clamp_min_count. }
  split.
  { rewrite length_zip_with, !length_fmap, length_zip_with, chunks_length.
    unfold Trainer.lm_mask. rewrite length_fmap. lia. }
  split.
  - intros i labels Hi. split; [by apply Hrow|].
    intros Hv. rewrite (Hrow i labels Hi), Hv. simpl.
    unfold Qcdiv. by rewrite Qcmult_0_l.
  - intros t1 t3 l0 l1 l2 H1 H3. simpl.
    rewrite !bool_decide_eq_true_2 by done. simpl. do 2 f_equal.
    unfold Tensor.clamp_min. rewrite bool_decide_eq_false_2.
    + unfold Tensor.sum. simpl. f_equal; ring.
    + unfold Tensor.sum. simpl. apply Qcle_not_lt.
      replace (1 + (0 + (1 + 0)))%Qc with (1 + 1)%Qc by ring.
      rewrite <- (Qcplus_0_r 1) at 1. apply Qcplus_le_mono_l. done.
Qed.

Lemma C5_example_loss_witness :
  ∃ loss,
    Trainer.example_loss 2 3 (Trainer.target_ids Sample.b) Sample.output_loss
    = Ok loss ∧
    loss !! 0 = Some (Sample.q 2) ∧ loss !! 1 = Some 0%Qc.
Proof.
  destruct (C5_example_loss (Trainer.target_ids Sample.b) 3 Sample.output_loss)
    as (loss & Hl & _ & Hrow & _).
  - repeat constructor.
  - reflexivity.
  - exists loss. split; [exact Hl|]. split.
    + rewrite (proj1 (Hrow 0 [5; -100; 7]%Z eq_refl)).
      f_equal. apply Qc_is_canon. reflexivity.
    + apply (proj2 (Hrow 1 [-100; -100; -100]%Z eq_refl)). reflexivity.
Defined.

(** ** Merging step results into the epoch results *)

Lemma merge_item_lookup er k0 v0 k :
  Trainer.merge_item er (k0, v0) !! k
  = if decide (k = k0) then
      match er !! k0 with
      | Some old =>
          Some (match v0 with
                | VInt n => Py.add old (VInt n)
                | VTensor x => Py.add old (VFloat x)
                | VFloat _ => old
                end)
      | None => None
      end
    else er !! k.
Proof.
  unfold Trainer.merge_item. case_decide as Hk.
  - subst k. destruct (er !! k0) as [old|] eqn:E; [|done].
    destruct v0; by rewrite ?lookup_insert_eq.
  - destruct (er !! k0) as [old|]; [|done].
    destruct v0; by rewrite ?lookup_insert_ne.
Qed.

(** What a merge does to every key: only keys already present survive, and
    the value of a present key grows by the step's int or tensor value. *)
Lemma merge_lookup er r k :
  Trainer.merge er r !! k
  = match er !! k with
    | Some old =>
        Some (match r !! k with
              | Some (VInt n) => Py.add old (VInt n)
              | Some (VTensor x) => Py.add old (VFloat x)
              | Some (VFloat _) | None => old
              end)
    | None => None
    end.
Proof.
  unfold Trainer.merge.
  replace (r !! k)
    with ((list_to_map (map_to_list r) : gmap string pyval) !! k)
    by (by rewrite list_to_map_to_list).
  pose proof (NoDup_fst_map_to_list r) as Hnd.
  revert er Hnd. generalize (map_to_list r). intros l.
  induction l as [|[k0 v0] l IH]; intros er Hnd.
  - simpl. rewrite lookup_empty. by destruct (er !! k).
  - rewrite fmap_cons in Hnd. apply NoDup_cons in Hnd as [Hk0 Hnd].
    rewrite list_to_map_cons. cbn [foldl]. rewrite IH by done.
    rewrite merge_item_lookup. case_decide as Hk.
    + subst k. rewrite lookup_insert_eq.
      rewrite (not_elem_of_list_to_map_1 _ _ Hk0).
      by destruct (er !! k0).
    + by rewrite lookup_insert_ne.
Qed.

Lemma merge_dom er r : dom (Trainer.merge er r) = dom er.
Proof.
  apply set_eq. intros k. rewrite !elem_of_dom, merge_lookup.
  destruct (er !! k); [|done]. split; intros _; by eexists.
Qed.

Lemma init_epoch_results_count names :
  (∀ n, n ∈ names → endswith n "t" = false) →
  ∀ (d : gmap string pyval) k,
  endswith k "t" = true →
  foldl (λ d loss_name,
           <[loss_name +:+ "_count" := VInt 0]> (<[loss_name := VFloat 0]> d))
        d names !! k
  = if bool_decide (k ∈ (λ n, n +:+ "_count") <$> names)
    then Some (VInt 0) else d !! k.
Proof.
  induction names as [|n names IH]; intros Hn d k Hk; simpl; [done|].
  rewrite IH; [|intros n' Hn'; apply Hn, elem_of_cons; by right|done].
  case_bool_decide as H1.
  - rewrite bool_decide_eq_true_2; [done|]. apply elem_of_cons. by right.
  - destruct (decide (k = n +:+ "_count")) as [->|Hne].
    + rewrite lookup_insert_eq, bool_decide_eq_true_2; [done|].
      apply elem_of_cons. by left.
    + rewrite lookup_insert_ne by done.
      rewrite lookup_insert_ne.
      * rewrite bool_decide_eq_false_2; [done|].
        intros [?|?]%elem_of_cons; done.
      * intros ->. rewrite Hn in Hk; [done|]. apply elem_of_cons. by left.
Qed.

Lemma init_epoch_results_dom names :
  dom (Trainer.init_epoch_results names)
  = list_to_set names ∪ list_to_set ((λ n, n +:+ "_count") <$> names).
Proof.
  unfold Trainer.init_epoch_results.
  assert (H : ∀ d : gmap string pyval,
    dom (foldl (λ d loss_name,
                  <[loss_name +:+ "_count" := VInt 0]>
                    (<[loss_name := VFloat 0]> d)) d names)
    = dom d ∪ list_to_set names
      ∪ list_to_set ((λ n, n +:+ "_count") <$> names)).
  { induction names as [|n names IH]; intros d; simpl.
    - set_solver.
    - rewrite IH, !dom_insert_L. set_solver. }
  rewrite H, dom_empty_L. set_solver.
Qed.

(** Value keys end in [s] and count keys in [t]. *)
Lemma endswith_loss_t (task : string) : endswith (task +:+ "_loss") "t" = false.
Proof.
  replace (task +:+ "_loss") with ((task +:+ "_los") +:+ "s")
    by (by rewrite string_app_assoc).
  by apply endswith_last_char.
Qed.

Lemma endswith_count_t (name : string) :
  endswith (name +:+ "_count") "t" = true.
Proof.
  unfold endswith. apply bool_decide_eq_true.
  rewrite list_ascii_of_string_app. apply suffix_app_r. compute_done.
Qed.

Lemma LOSSES_NAME_elem a name :
  name ∈ Args.LOSSES_NAME a ↔
  (∃ n, n ∈ Args.losses a ∧ name = n +:+ "_loss") ∨ name = "total_loss".
Proof.
  unfold Args.LOSSES_NAME.
  rewrite elem_of_app, list_elem_of_fmap, list_elem_of_singleton.
  naive_solver.
Qed.

Lemma LOSSES_NAME_endswith a name :
  name ∈ Args.LOSSES_NAME a →
  endswith name "t" = false ∧ endswith name "_loss" = true.
Proof.
  intros [(n & _ & ->)| ->]%LOSSES_NAME_elem.
  - split; [apply endswith_loss_t|apply endswith_app].
  - split; compute_done.
Qed.

Lemma epoch_results_no_loss a :
  "loss" ∉ dom (Trainer.init_epoch_results (Args.LOSSES_NAME a)).
Proof.
  rewrite init_epoch_results_dom, elem_of_union, !elem_of_list_to_set.
  intros [H|H].
  - apply LOSSES_NAME_endswith in H as [_ H]. revert H. compute_done.
  - apply list_elem_of_fmap in H as (n & H & _).
    pose proof (endswith_count_t n) as Ht. rewrite <- H in Ht.
    revert Ht. compute_done.
Qed.

Lemma epoch_results_unconfigured_task a task :
  task ∉ Args.losses a → task ≠ "total" →
  ((task +:+ "_loss")
     ∉ dom (Trainer.init_epoch_results (Args.LOSSES_NAME a))) ∧
  ((task +:+ "_loss_count")
     ∉ dom (Trainer.init_epoch_results (Args.LOSSES_NAME a))).
Proof.
  intros Ht Htot.
  assert (Hv : task +:+ "_loss" ∉ Args.LOSSES_NAME a).
  { intros [(n & Hn & Heq)|Heq]%LOSSES_NAME_elem.
    - apply string_app_inv_r in Heq as ->. done.
    - apply Htot. by apply (string_app_inv_r task "total" "_loss"). }
  rewrite init_epoch_results_dom, !elem_of_union, !elem_of_list_to_set.
  split; intros [H|H].
  - done.
  - apply list_elem_of_fmap in H as (n & H & _).
    pose proof (endswith_count_t n) as Hc. rewrite <- H in Hc.
    by rewrite endswith_loss_t in Hc.
  - apply LOSSES_NAME_endswith in H as [H _].
    replace (task +:+ "_loss_count") with ((task +:+ "_loss") +:+ "_count")
      in H by (by rewrite string_app_assoc).
    by rewrite endswith_count_t in H.
  - apply list_elem_of_fmap in H as (n & H & Hn).
    replace (task +:+ "_loss_count") with ((task +:+ "_loss") +:+ "_count")
      in H by (by rewrite string_app_assoc).
    apply string_app_inv_r in H as <-. done.
Qed.

Lemma loop_epoch_results_dom tr epoch total loader : ∀ st i st',
  outcome (Trainer.loop tr epoch total st i loader) = Ok st' →
  dom (Trainer.epoch_results st') = dom (Trainer.epoch_results st).
Proof.
  induction loader as [|x rest IH]; intros st i st' H; simpl in H.
  - by simplify_eq.
  - apply M_bind_inv in H as (st1 & H1 & H2 & _).
    rewrite (IH _ _ _ H2).
    apply step_Ok in H1 as (r & l & upd & _ & _ & _ & -> & _). simpl.
    apply merge_dom.
Qed.

(** C10.  At the start of an epoch [epoch_results] has one value key and one
    [_count] key for every name of [LOSSES_NAME], and nothing else; in
    particular it has no key [loss], and no key of a task that is neither
    configured nor named [total].  Every merge keeps this key set, through
    all the steps of an epoch that completes: an entry of the step results
    whose key is absent is dropped, an int or tensor entry of a present key
    is added to the old value, and an entry of any other type leaves the
    old value as it is. *)
Theorem C10_epoch_results_keys tr epoch total st i loader st' :
  outcome (Trainer.loop tr epoch total st i loader) = Ok st' →
  Trainer.epoch_results st
  = Trainer.init_epoch_results (Args.LOSSES_NAME (Trainer.args tr)) →
  let names := Args.LOSSES_NAME (Trainer.args tr) in
  dom (Trainer.init_epoch_results names)
  = list_to_set names ∪ list_to_set ((λ n, n +:+ "_count") <$> names) ∧
  dom (Trainer.epoch_results st') = dom (Trainer.init_epoch_results names) ∧
  (∀ er r, dom (Trainer.merge er r) = dom er) ∧
  (∀ er r k, er !! k = None → Trainer.merge er r !! k = None) ∧
  (∀ er r k old,
     er !! k = Some old →
     Trainer.merge er r !! k
     = Some (match r !! k with
             | Some (VInt n) => Py.add old (VInt n)
             | Some (VTensor x) => Py.add old (VFloat x)
             | Some (VFloat _) | None => old
             end)) ∧
  ("loss" ∉ dom (Trainer.init_epoch_results names)) ∧
  (∀ task, task ∉ Args.losses (Trainer.args tr) → task ≠ "total" →
           ((task +:+ "_loss") ∉ dom (Trainer.init_epoch_results names)) ∧
           ((task +:+ "_loss_count")
              ∉ dom (Trainer.init_epoch_results names))).
Proof.
  intros H Hinit names.
  split; [apply init_epoch_results_dom|].
  split; [by rewrite (loop_epoch_results_dom _ _ _ _ _ _ _ H), Hinit|].
  split; [apply merge_dom|].
  split; [intros er r k Hk; by rewrite merge_lookup, Hk|].
  split; [intros er r k old Hk; by rewrite merge_lookup, Hk|].
  split; [apply epoch_results_no_loss|].
  apply epoch_results_unconfigured_task.
Qed.

Lemma C10_epoch_results_keys_witness :
  ∃ st',
    outcome (Trainer.loop Sample.tr 0 2
               {| Trainer.results := None;
                  Trainer.epoch_results :=
                    Trainer.init_epoch_results (Args.LOSSES_NAME Sample.a);
                  Trainer.global_step := 0 |} 0 Sample.loader) = Ok st' ∧
    dom (Trainer.epoch_results st')
    = dom (Trainer.init_epoch_results (Args.LOSSES_NAME Sample.a)).
Proof.
  eexists. split; [vm_compute; reflexivity|].
  refine (proj1 (proj2 (C10_epoch_results_keys Sample.tr 0 2
                          {| Trainer.results := None;
                             Trainer.epoch_results :=
                               Trainer.init_epoch_results
                                 (Args.LOSSES_NAME Sample.a);
                             Trainer.global_step := 0 |} 0 Sample.loader _
                          _ eq_refl))).
  vm_compute. reflexivity.
Defined.

(** ** The counts of an epoch *)

Lemma num_add a b : num (Py.add a b) = (num a + num b)%Qc.
Proof.
  destruct a, b; simpl; try done. apply Z2Qc_inj_add.
Qed.

(** In a result dictionary, the entries under keys ending in [t] are
    non-negative ints. *)
Lemma record_task_counts task_loss task_counts results task results' :
  (∀ k v, results !! k = Some v → endswith k "t" = true →
          ∃ c, v = VInt c ∧ (0 ≤ c)%Z) →
  Trainer.record_task task_loss task_counts results task = Ok results' →
  ∀ k v, results' !! k = Some v → endswith k "t" = true →
         ∃ c, v = VInt c ∧ (0 ≤ c)%Z.
Proof.
  intros Hgood H.
  unfold Trainer.record_task, getitem, mret, result_ret in H.
  destruct (task_counts !! task) as [c|]; simpl in H; [|done].
  case_bool_decide as Hc; [|by simplify_eq].
  destruct (task_loss !! task) as [l|]; simpl in H; [|done].
  simplify_eq.
  intros k v Hk Ht.
  destruct (decide (k = task +:+ "_loss_count")) as [->|Hne1].
  - rewrite lookup_insert_eq in Hk. simplify_eq. exists c. split; [done|lia].
  - rewrite lookup_insert_ne in Hk by done.
    destruct (decide (k = task +:+ "_loss")) as [->|Hne2].
    + by rewrite endswith_loss_t in Ht.
    + rewrite lookup_insert_ne in Hk by done. by apply (Hgood k).
Qed.

Lemma forward_counts tr b output_loss r :
  Trainer.forward tr b output_loss = Ok r →
  ∀ k v, r !! k = Some v → endswith k "t" = true →
         ∃ c, v = VInt c ∧ (0 ≤ c)%Z.
Proof.
  unfold Trainer.forward. intros H.
  apply result_bind_inv in H as (loss & _ & H).
  apply result_bind_inv in H as (weighted & _ & H).
  apply result_bind_inv in H as (acc & _ & H).
  apply (foldl_result_Ok_inv
           (λ r, ∀ k v, r !! k = Some v → endswith k "t" = true →
                        ∃ c, v = VInt c ∧ (0 ≤ c)%Z)) in H as [H _];
    [done| |].
  - intros r1 task r2 Hr1 Hrec. by eapply record_task_counts.
  - intros k v Hk Ht.
    destruct (decide (k = "total_loss_count")) as [->|Hne1].
    + rewrite lookup_insert_eq in Hk. simplify_eq. eexists. split; [done|lia].
    + rewrite lookup_insert_ne in Hk by done.
      destruct (decide (k = "total_loss")) as [->|Hne2];
        [by vm_compute in Ht|].
      rewrite lookup_insert_ne in Hk by done.
      destruct (decide (k = "loss")) as [->|Hne3]; [by vm_compute in Ht|].
      rewrite lookup_insert_ne in Hk by done. by rewrite lookup_empty in Hk.
Qed.

Lemma current_results_counts tr st x r :
  (Args.fp16 (Trainer.args tr) = false ∧
   Args.distributed (Trainer.args tr) = true) ∨
  match Trainer.results st with
  | Some r0 => ∀ k v, r0 !! k = Some v → endswith k "t" = true →
                      ∃ c, v = VInt c ∧ (0 ≤ c)%Z
  | None => True
  end →
  Trainer.current_results tr st x = Ok r →
  ∀ k v, r !! k = Some v → endswith k "t" = true →
         ∃ c, v = VInt c ∧ (0 ≤ c)%Z.
Proof.
  intros Hrv H. unfold Trainer.current_results in H.
  apply result_bind_inv in H as (ro & H1 & H2).
  destruct ro as [r0|]; [|done]. simplify_eq.
  destruct (Args.fp16 (Trainer.args tr)) eqn:Efp; simpl in H1.
  - simplify_eq. destruct Hrv as [[? _]|Hrv]; [done|]. by rewrite H1 in Hrv.
  - destruct (Args.distributed (Trainer.args tr)) eqn:Ed.
    + apply result_bind_inv in H1 as (r1 & H1 & ?). simplify_eq.
      by eapply forward_counts.
    + simplify_eq. destruct Hrv as [[_ ?]|Hrv]; [done|].
      by rewrite H1 in Hrv.
Qed.

Lemma merge_counts (names : list string) er r :
  (∀ k v, r !! k = Some v → endswith k "t" = true →
          ∃ c, v = VInt c ∧ (0 ≤ c)%Z) →
  (∀ name, name ∈ names →
           ∃ c, er !! (name +:+ "_count") = Some (VInt c) ∧ (0 ≤ c)%Z) →
  ∀ name, name ∈ names →
          ∃ c, Trainer.merge er r !! (name +:+ "_count") = Some (VInt c) ∧
               (0 ≤ c)%Z.
Proof.
  intros Hr Her name Hn. destruct (Her name Hn) as (c & Hc & Hpos).
  rewrite merge_lookup, Hc.
  destruct (r !! (name +:+ "_count")) as [v|] eqn:E; [|by exists c].
  destruct (Hr _ _ E (endswith_count_t name)) as (c' & -> & Hpos').
  simpl. exists (c + c')%Z. split; [done|lia].
Qed.

Lemma loop_counts tr epoch total loader : ∀ st i st',
  outcome (Trainer.loop tr epoch total st i loader) = Ok st' →
  (Args.fp16 (Trainer.args tr) = false ∧
   Args.distributed (Trainer.args tr) = true) ∨
  match Trainer.results st with
  | Some r0 => ∀ k v, r0 !! k = Some v → endswith k "t" = true →
                      ∃ c, v = VInt c ∧ (0 ≤ c)%Z
  | None => True
  end →
  (∀ name, name ∈ Args.LOSSES_NAME (Trainer.args tr) →
           ∃ c, Trainer.epoch_results st !! (name +:+ "_count")
                = Some (VInt c) ∧ (0 ≤ c)%Z) →
  ∀ name, name ∈ Args.LOSSES_NAME (Trainer.args tr) →
          ∃ c, Trainer.epoch_results st' !! (name +:+ "_count")
               = Some (VInt c) ∧ (0 ≤ c)%Z.
Proof.
  induction loader as [|x rest IH]; intros st i st' H Hrv Hc; simpl in H.
  - by simplify_eq.
  - apply M_bind_inv in H as (st1 & H1 & H2 & _).
    apply step_Ok in H1 as (r & l & upd & Hr & _ & _ & -> & _).
    pose proof (current_results_counts _ _ _ _ Hrv Hr) as Hgood.
    apply (IH _ _ _ H2); simpl.
    + by right.
    + by apply merge_counts.
Qed.

Lemma init_epoch_results_counts a name :
  name ∈ Args.LOSSES_NAME a →
  Trainer.init_epoch_results (Args.LOSSES_NAME a) !! (name +:+ "_count")
  = Some (VInt 0).
Proof.
  intros Hn. unfold Trainer.init_epoch_results.
  rewrite init_epoch_results_count.
  - rewrite bool_decide_eq_true_2; [done|].
    apply list_elem_of_fmap. by exists name.
  - intros n Hin. by apply LOSSES_NAME_endswith in Hin as [? _].
  - apply endswith_count_t.
Qed.

Lemma report_entry_counts results acc kv acc' :
  (∀ name c avg, (name, c, avg) ∈ acc →
     (0 < c)%Z ∧ slice_last 4 name = "loss" ∧
     ∃ v, results !! (name +:+ "_count") = Some v ∧ to_int v = c) →
  Trainer.report_entry results acc kv = Ok acc' →
  ∀ name c avg, (name, c, avg) ∈ acc' →
    (0 < c)%Z ∧ slice_last 4 name = "loss" ∧
    ∃ v, results !! (name +:+ "_count") = Some v ∧ to_int v = c.
Proof.
  intros Hacc H. destruct kv as [name0 loss].
  unfold Trainer.report_entry, getitem, mret, result_ret in H.
  case_bool_decide as Hs; [|by simplify_eq].
  destruct (results !! (name0 +:+ "_count")) as [v|] eqn:E; simpl in H;
    [|done].
  case_bool_decide as Hc; [|by simplify_eq].
  simplify_eq. intros name c avg [Hin|Hin]%elem_of_app;
    [by apply (Hacc name c avg)|].
  apply list_elem_of_singleton in Hin. simplify_eq.
  split; [done|]. split; [done|]. by exists v.
Qed.

Lemma epoch_report_prints results avg entries :
  PrintLosses avg entries ∈ trace (Trainer.epoch_report results) →
  (∃ tl tc, results !! "total_loss" = Some tl ∧
            results !! "total_loss_count" = Some tc ∧
            num tc ≠ 0%Qc ∧ avg = (num tl / num tc)%Qc) ∧
  ∀ name c avgl, (name, c, avgl) ∈ entries →
    (0 < c)%Z ∧ slice_last 4 name = "loss" ∧
    ∃ v, results !! (name +:+ "_count") = Some v ∧ to_int v = c.
Proof.
  unfold Trainer.epoch_report, mbind, M_bind, lift, emit, getitem, truediv.
  destruct (results !! "total_loss") as [tl|]; simpl;
    [|by intros ?%elem_of_nil].
  destruct (results !! "total_loss_count") as [tc|]; simpl;
    [|by intros ?%elem_of_nil].
  case_bool_decide as Hz; simpl; [by intros ?%elem_of_nil|].
  destruct (foldl_result _ _ _) as [es|e] eqn:E; simpl;
    [|by intros ?%elem_of_nil].
  intros Hin%list_elem_of_singleton. simplify_eq.
  split; [by exists tl, tc|].
  apply (foldl_result_Ok_inv
           (λ acc, ∀ name c avg, (name, c, avg) ∈ acc →
              (0 < c)%Z ∧ slice_last 4 name = "loss" ∧
              ∃ v, results !! (name +:+ "_count") = Some v ∧ to_int v = c))
    in E as [E _]; [done| |].
  - intros acc kv acc' Hacc Hr. by eapply report_entry_counts.
  - intros name c avg Hin. by apply elem_of_nil in Hin.
Qed.

(** C6.  At the end of an epoch that completes, the keys of
    [epoch_results] are the configured loss names and their [_count] keys,
    and every count is a non-negative int.  A merge changes the value of a
    present key only by adding the step's value to it.  A per-metric average
    is reported only for a metric whose count is positive, and the headline
    average of the total loss is reported only when the total count is not
    zero, the division raising otherwise. *)
Theorem C6_epoch_results_counts tr epoch loader rv st' :
  outcome (Trainer.loop tr epoch (length loader)
             {| Trainer.results := rv;
                Trainer.epoch_results :=
                  Trainer.init_epoch_results
                    (Args.LOSSES_NAME (Trainer.args tr));
                Trainer.global_step := 0 |} 0 loader) = Ok st' →
  rv = None ∨ (Args.fp16 (Trainer.args tr) = false ∧
               Args.distributed (Trainer.args tr) = true) →
  let names := Args.LOSSES_NAME (Trainer.args tr) in
  (∀ k, k ∈ dom (Trainer.epoch_results st') →
        ∃ name, name ∈ names ∧ (k = name ∨ k = name +:+ "_count")) ∧
  (∀ name, name ∈ names →
           ∃ c, Trainer.epoch_results st' !! (name +:+ "_count")
                = Some (VInt c) ∧ (0 ≤ c)%Z) ∧
  (∀ er r k old,
     er !! k = Some old →
     ∃ new, Trainer.merge er r !! k = Some new ∧
            num new = (num old + match r !! k with
                                 | Some (VInt n) => Qc_of_Z n
                                 | Some (VTensor x) => x
                                 | Some (VFloat _) | None => 0
                                 end)%Qc) ∧
  (∀ results avg entries,
     PrintLosses avg entries ∈ trace (Trainer.epoch_report results) →
     (∃ tl tc, results !! "total_loss" = Some tl ∧
               results !! "total_loss_count" = Some tc ∧
               num tc ≠ 0%Qc ∧ avg = (num tl / num tc)%Qc) ∧
     ∀ name c avgl, (name, c, avgl) ∈ entries →
       (0 < c)%Z ∧ slice_last 4 name = "loss" ∧
       ∃ v, results !! (name +:+ "_count") = Some v ∧ to_int v = c).
Proof.
  intros H Hrv names. split; [|split; [|split]].
  - intros k Hk.
    rewrite (loop_epoch_results_dom _ _ _ _ _ _ _ H) in Hk. simpl in Hk.
    rewrite init_epoch_results_dom, elem_of_union, !elem_of_list_to_set in Hk.
    destruct Hk as [Hk|Hk].
    + exists k. split; [done|by left].
    + apply list_elem_of_fmap in Hk as (n & -> & Hn).
      exists n. split; [done|by right].
  - apply (loop_counts _ _ _ _ _ _ _ H); simpl.
    + destruct Hrv as [->|?]; [by right|by left].
    + intros name Hn. exists 0%Z. split; [|done].
      by apply init_epoch_results_counts.
  - intros er r k old Hk. rewrite merge_lookup, Hk. eexists. split; [done|].
    destruct (r !! k) as [[n|x|x]|]; rewrite ?num_add; simpl;
      by rewrite ?Qcplus_0_r.
  - apply epoch_report_prints.
Qed.

Lemma C6_epoch_results_counts_witness :
  ∃ st' c,
    outcome (Trainer.loop Sample.tr 0 (length Sample.loader)
               {| Trainer.results := None;
                  Trainer.epoch_results :=
                    Trainer.init_epoch_results (Args.LOSSES_NAME Sample.a);
                  Trainer.global_step := 0 |} 0 Sample.loader) = Ok st' ∧
    Trainer.epoch_results st' !! "total_loss_count" = Some (VInt c) ∧
    (0 ≤ c)%Z.
Proof.
  eexists.
  assert (Hok : outcome (Trainer.loop Sample.tr 0 (length Sample.loader)
             {| Trainer.results := None;
                Trainer.epoch_results :=
                  Trainer.init_epoch_results (Args.LOSSES_NAME Sample.a);
                Trainer.global_step := 0 |} 0 Sample.loader) = Ok _)
    by (vm_compute; reflexivity).
  destruct (proj1 (proj2 (C6_epoch_results_counts Sample.tr 0 Sample.loader
                            None _ Hok (or_introl eq_refl)))
              "total_loss") as (c & Hc & Hpos).
  - apply elem_of_app. right. apply list_elem_of_singleton. reflexivity.
  - exists c. split; [exact Hok|]. split; [exact Hc|exact Hpos].
Defined.

Lemma loss_count_key (task : string) :
  task +:+ "_loss_count" = (task +:+ "_loss") +:+ "_count".
Proof. by rewrite string_app_assoc. Qed.

Lemma endswith_loss_count_t (task : string) :
  endswith (task +:+ "_loss_count") "t" = true.
Proof. rewrite loss_count_key. apply endswith_count_t. Qed.

(** ** One forward pass *)

Lemma zeros_lookup {V} (zero : V) (tasks : list string) (t : string) :
  Trainer.zeros zero tasks !! t
  = if bool_decide (t ∈ tasks) then Some zero else None.
Proof.
  unfold Trainer.zeros.
  assert (H : ∀ d : gmap string V,
    foldl (λ d task, <[task := zero]> d) d tasks !! t
    = if bool_decide (t ∈ tasks) then Some zero else d !! t).
  { induction tasks as [|t0 tasks IH]; intros d; simpl; [done|].
    rewrite IH. case_bool_decide as H1.
    - rewrite bool_decide_eq_true_2; [done|]. apply elem_of_cons. by right.
    - destruct (decide (t = t0)) as [->|Hne].
      + rewrite lookup_insert_eq, bool_decide_eq_true_2; [done|].
        apply elem_of_cons. by left.
      + rewrite lookup_insert_ne by done.
        rewrite bool_decide_eq_false_2; [done|].
        intros [?|?]%elem_of_cons; done. }
  rewrite H. by case_bool_decide.
Qed.

(** The loop over the examples leaves, for every task, its number of
    examples and, when it has examples, the sum of their losses. *)
Lemma tally_spec (l : list (Qc * string)) :
  ∀ (task_loss : gmap string pyval) (task_counts : gmap string Z),
  (∀ p, p ∈ l → is_Some (task_loss !! p.2) ∧ is_Some (task_counts !! p.2)) →
  ∃ task_loss' task_counts',
    foldl_result Trainer.tally (task_loss, task_counts) l
    = Ok (task_loss', task_counts') ∧
    ∀ t,
      task_counts' !! t
      = (λ c, c + Z.of_nat (length (filter (λ p, p.2 = t) l)))%Z
          <$> task_counts !! t ∧
      task_loss' !! t
      = (λ v, if decide (filter (λ p, p.2 = t) l = []) then v
              else VTensor (num v + Tensor.sum (filter (λ p, p.2 = t) l).*1))
          <$> task_loss !! t.
Proof.
  induction l as [|[x task] l IH]; intros tl tc Hdom.
  - exists tl, tc. split; [done|]. intros t. simpl. split.
    + destruct (tc !! t); simpl; [|done]. f_equal. lia.
    + by destruct (tl !! t).
  - destruct (Hdom (x, task)) as [[l0 Hl0] [c0 Hc0]];
      [apply elem_of_cons; by left|]. simpl in Hl0, Hc0.
    destruct (IH (<[task := Py.add l0 (VTensor x)]> tl)
                 (<[task := (c0 + 1)%Z]> tc)) as (tl' & tc' & Hfold & Hspec).
    { intros p Hp.
      destruct (Hdom p) as [H1 H2]; [apply elem_of_cons; by right|].
      split; apply lookup_insert_is_Some';  by right. }
    exists tl', tc'. split.
    { simpl. unfold getitem. rewrite Hl0. simpl. rewrite Hc0. simpl.
      exact Hfold. }
    intros t. destruct (Hspec t) as [Hc Hl]. rewrite Hc, Hl.
    destruct (decide (t = task)) as [->|Hne].
    + rewrite !lookup_insert_eq, Hl0, Hc0.
      rewrite filter_cons_True by done. csimpl. split.
      * f_equal. lia.
      * f_equal. destruct (decide (filter _ l = [])) as [->|Hn].
        -- destruct l0; simpl; f_equal; ring.
        -- rewrite num_add. simpl. f_equal. ring.
    + rewrite !lookup_insert_ne by done.
      rewrite filter_cons_False by (simpl; congruence). done.
Qed.

Lemma record_task_Ok task_loss task_counts results task :
  is_Some (task_counts !! task) → is_Some (task_loss !! task) →
  ∃ results', Trainer.record_task task_loss task_counts results task
              = Ok results'.
Proof.
  intros [c Hc] [l Hl]. unfold Trainer.record_task, getitem.
  rewrite Hc. simpl. case_bool_decide; [|by eexists].
  rewrite Hl. simpl. by eexists.
Qed.

Lemma record_tasks_Ok task_loss task_counts tasks : ∀ results,
  (∀ t, t ∈ tasks →
        is_Some (task_counts !! t) ∧ is_Some (task_loss !! t)) →
  ∃ results',
    foldl_result (Trainer.record_task task_loss task_counts) results tasks
    = Ok results'.
Proof.
  induction tasks as [|t tasks IH]; intros results Hdom; simpl;
    [by eexists|].
  destruct (Hdom t) as [Hc Hl]; [apply elem_of_cons; by left|].
  destruct (record_task_Ok task_loss task_counts results t Hc Hl) as [r1 ->].
  simpl. apply IH. intros t' Ht'. apply Hdom, elem_of_cons. by right.
Qed.

(** A task with examples gets its two entries, and later tasks keep them. *)
Lemma record_tasks_present task_loss task_counts t c v tasks :
  task_counts !! t = Some c → (0 < c)%Z → task_loss !! t = Some v →
  ∀ results results',
  foldl_result (Trainer.record_task task_loss task_counts) results tasks
  = Ok results' →
  t ∈ tasks ∨ (results !! (t +:+ "_loss") = Some v ∧
               results !! (t +:+ "_loss_count") = Some (VInt c)) →
  results' !! (t +:+ "_loss") = Some v ∧
  results' !! (t +:+ "_loss_count") = Some (VInt c).
Proof.
  intros Hc Hpos Hv.
  induction tasks as [|t' tasks IH]; intros results results' H Hin;
    simpl in H.
  - simplify_eq. destruct Hin as [Hin|Hin]; [|done].
    by apply elem_of_nil in Hin.
  - apply result_bind_inv in H as (r1 & H1 & H2).
    apply (IH r1 results' H2).
    destruct (decide (t' = t)) as [->|Hne].
    + right. unfold Trainer.record_task, getitem, mret, result_ret in H1.
      rewrite Hc in H1. simpl in H1.
      rewrite bool_decide_eq_true_2 in H1 by done.
      rewrite Hv in H1. simpl in H1. simplify_eq. split.
      * rewrite lookup_insert_ne, lookup_insert_eq; [done|].
        intros Heq. pose proof (endswith_loss_t t) as Ht.
        rewrite <- Heq in Ht.
        replace (t +:+ "_loss_count") with ((t +:+ "_loss") +:+ "_count")
          in Ht by (by rewrite string_app_assoc).
        by rewrite endswith_count_t in Ht.
      * by rewrite lookup_insert_eq.
    + destruct Hin as [Hin|[Hl Hcnt]].
      { left. apply elem_of_cons in Hin as [?|?]; [congruence|done]. }
      right. unfold Trainer.record_task, getitem, mret, result_ret in H1.
      destruct (task_counts !! t') as [c'|]; simpl in H1; [|done].
      case_bool_decide; [|by simplify_eq].
      destruct (task_loss !! t') as [l'|]; simpl in H1; [|done].
      simplify_eq.
      assert (Hk1 : t' +:+ "_loss_count" ≠ t +:+ "_loss").
      { intros Heq. pose proof (endswith_loss_t t) as Ht.
        rewrite <- Heq in Ht.
        replace (t' +:+ "_loss_count") with ((t' +:+ "_loss") +:+ "_count")
          in Ht by (by rewrite string_app_assoc).
        by rewrite endswith_count_t in Ht. }
      assert (Hk2 : t' +:+ "_loss" ≠ t +:+ "_loss").
      { intros Heq. by apply string_app_inv_r in Heq. }
      assert (Hk3 : t' +:+ "_loss_count" ≠ t +:+ "_loss_count").
      { intros Heq. by apply string_app_inv_r in Heq. }
      assert (Hk4 : t' +:+ "_loss" ≠ t +:+ "_loss_count").
      { intros Heq. pose proof (endswith_loss_t t') as Ht.
        rewrite Heq in Ht.
        replace (t +:+ "_loss_count") with ((t +:+ "_loss") +:+ "_count")
          in Ht by (by rewrite string_app_assoc).
        by rewrite endswith_count_t in Ht. }
      by rewrite !lookup_insert_ne.
Qed.

(** A key that no task with examples writes keeps its value. *)
Lemma record_tasks_other task_loss task_counts k tasks :
  ∀ results results',
  foldl_result (Trainer.record_task task_loss task_counts) results tasks
  = Ok results' →
  (∀ t c, t ∈ tasks → task_counts !! t = Some c → (0 < c)%Z →
          k ≠ t +:+ "_loss" ∧ k ≠ t +:+ "_loss_count") →
  results' !! k = results !! k.
Proof.
  induction tasks as [|t' tasks IH]; intros results results' H Hk;
    simpl in H.
  - by simplify_eq.
  - apply result_bind_inv in H as (r1 & H1 & H2).
    rewrite (IH r1 results' H2)
      by (intros t c Ht; apply Hk, elem_of_cons; by right).
    unfold Trainer.record_task, getitem, mret, result_ret in H1.
    destruct (task_counts !! t') as [c'|] eqn:Ec; simpl in H1; [|done].
    case_bool_decide; [|by simplify_eq].
    destruct (task_loss !! t') as [l'|]; simpl in H1; [|done].
    simplify_eq.
    destruct (Hk t' c') as [Hk1 Hk2]; [apply elem_of_cons; by left|done..|].
    by rewrite !lookup_insert_ne.
Qed.

Lemma task_examples_nonempty (loss : list Qc) (tasks : list string) t :
  length tasks = length loss →
  t ∈ tasks ↔ filter (λ p : Qc * string, p.2 = t) (zip loss tasks) ≠ [].
Proof.
  intros Hlen. split.
  - intros (i & Hi)%list_elem_of_lookup.
    destruct (lookup_lt_is_Some_2 loss i) as [x Hx].
    { apply lookup_lt_Some in Hi. lia. }
    assert (Hin : (x, t) ∈ filter (λ p : Qc * string, p.2 = t)
                            (zip loss tasks)).
    { apply list_elem_of_filter. split; [done|].
      apply list_elem_of_lookup. exists i.
      by rewrite lookup_zip_with, Hx, Hi. }
    intros Hnil. rewrite Hnil in Hin. by apply elem_of_nil in Hin.
  - intros Hne.
    destruct (filter _ _) as [|[x t'] l] eqn:E; [done|].
    assert (Hin : (x, t') ∈ filter (λ p : Qc * string, p.2 = t)
                             (zip loss tasks))
      by (rewrite E; apply elem_of_cons; by left).
    apply list_elem_of_filter in Hin as [Ht Hin]. simpl in Ht. subst t'.
    by apply elem_of_zip_r in Hin.
Qed.

(** C8.  On a batch with one weight and one task tag per example, all tags
    being tasks of the model, the forward pass returns a result dictionary
    in which [loss] is the mean over the batch of per-example loss times
    loss weight.  A task with an example in the batch has its two entries:
    the unweighted sum of the losses of its examples and their number.
    Every key that is not one of these is as the three batch-wide entries
    [loss], [total_loss] and [total_loss_count] leave it: a task without
    examples writes nothing, so that when it is not named [total] it has no
    entry. *)
Theorem C8_batch_results tr b output_loss loss :
  Trainer.example_loss (length (Trainer.target_ids b)) (Trainer.seq_len b)
    (Trainer.target_ids b) output_loss = Ok loss →
  length (Trainer.loss_weights b) = length loss →
  length (Trainer.task b) = length loss →
  (∀ t, t ∈ Trainer.task b → t ∈ Trainer.model_losses tr) →
  let weighted := zip_with Qcmult loss (Trainer.loss_weights b) in
  let scalar := (Tensor.sum weighted / Qc_of_Z (Z.of_nat (length loss)))%Qc in
  let base : gmap string pyval :=
    <["total_loss_count" := VInt (Z.of_nat (length loss))]>
      (<["total_loss" := VTensor (Tensor.sum loss)]>
         (<["loss" := VTensor scalar]> ∅)) in
  ∃ results,
    Trainer.forward tr b output_loss = Ok results ∧
    results !! "loss" = Some (VTensor scalar) ∧
    (∀ t, t ∈ Trainer.task b →
       let mine := (filter (λ p, p.2 = t) (zip loss (Trainer.task b))).*1 in
       results !! (t +:+ "_loss") = Some (VTensor (Tensor.sum mine)) ∧
       results !! (t +:+ "_loss_count")
       = Some (VInt (Z.of_nat (length mine))) ∧
       0 < length mine) ∧
    (∀ k, (∀ t, t ∈ Trainer.task b →
                k ≠ t +:+ "_loss" ∧ k ≠ t +:+ "_loss_count") →
          results !! k = base !! k) ∧
    (∀ t, t ∉ Trainer.task b → t ≠ "total" →
          results !! (t +:+ "_loss") = None ∧
          results !! (t +:+ "_loss_count") = None).
Proof.
  intros Hloss Hw Htl Hsub weighted scalar base.
  unfold Trainer.forward. rewrite Hloss. simpl.
  unfold Tensor.mul1. rewrite bool_decide_eq_true_2 by done. simpl.
  destruct (tally_spec (zip loss (Trainer.task b))
              (Trainer.zeros (VInt 0) (Trainer.model_losses tr))
              (Trainer.zeros 0%Z (Trainer.model_losses tr)))
    as (tl & tc & Hfold & Hspec).
  { intros [x t] Hp. apply elem_of_zip_r in Hp. simpl.
    rewrite !zeros_lookup, !bool_decide_eq_true_2 by by apply Hsub.
    split; by eexists. }
  rewrite Hfold. simpl.
  assert (Hmean : Tensor.mean weighted = scalar).
  { unfold Tensor.mean, scalar, weighted. rewrite length_zip_with.
    do 3 f_equal. lia. }
  unfold weighted in Hmean. rewrite Hmean. fold base.
  destruct (record_tasks_Ok tl tc (Trainer.model_losses tr) base)
    as [results Hrec].
  { intros t Ht. destruct (Hspec t) as [-> ->].
    rewrite !zeros_lookup, !bool_decide_eq_true_2 by done.
    split; by eexists. }
  exists results. split; [done|].
  assert (Hcount : ∀ t c, tc !! t = Some c → (0 < c)%Z → t ∈ Trainer.task b).
  { intros t c Hc Hpos. apply (task_examples_nonempty loss); [done|].
    intros Hnil. destruct (Hspec t) as [Hct _].
    rewrite Hnil, zeros_lookup in Hct. rewrite Hct in Hc.
    case_bool_decide; simplify_eq/=. lia. }
  assert (Hother : ∀ k,
    (∀ t, t ∈ Trainer.task b →
          k ≠ t +:+ "_loss" ∧ k ≠ t +:+ "_loss_count") →
    results !! k = base !! k).
  { intros k Hk. apply (record_tasks_other _ _ k _ _ _ Hrec).
    intros t c _ Hc Hpos. apply Hk. by apply (Hcount t c). }
  split; [|split; [|split; [exact Hother|]]].
  - rewrite Hother; [done|].
    intros t _. split; intros Heq.
    + pose proof (endswith_app t "_loss") as He. rewrite <- Heq in He.
      revert He. compute_done.
    + pose proof (endswith_loss_count_t t) as He. rewrite <- Heq in He.
      revert He. compute_done.
  - intros t Hin.
    set (mine := (filter (λ p : Qc * string, p.2 = t)
                    (zip loss (Trainer.task b))).*1).
    destruct (Hspec t) as [Hct Hlt].
    rewrite zeros_lookup, bool_decide_eq_true_2 in Hct by by apply Hsub.
    rewrite zeros_lookup, bool_decide_eq_true_2 in Hlt by by apply Hsub.
    simpl in Hct, Hlt.
    assert (Hne : filter (λ p : Qc * string, p.2 = t)
                    (zip loss (Trainer.task b)) ≠ [])
      by by apply task_examples_nonempty.
    rewrite decide_False in Hlt by done.
    assert (Hpos : 0 < length mine).
    { unfold mine. rewrite length_fmap.
      destruct (filter _ _); [done|simpl; lia]. }
    destruct (record_tasks_present tl tc t _ _ (Trainer.model_losses tr)
                Hct ltac:(unfold mine in Hpos; rewrite length_fmap in Hpos;
                          lia) Hlt base results Hrec) as [H1 H2].
    { left. by apply Hsub. }
    rewrite H1, H2. unfold mine. rewrite length_fmap.
    split; [|split; [done|by rewrite <- (length_fmap fst)]].
    do 2 f_equal. simpl. rewrite Z2Qc_inj_0. apply Qcplus_0_l.
  - intros t Hnin Htot.
    assert (Hk1 : ∀ t', t' ∈ Trainer.task b →
              t +:+ "_loss" ≠ t' +:+ "_loss" ∧
              t +:+ "_loss" ≠ t' +:+ "_loss_count").
    { intros t' Ht'. split; intros Heq.
      - apply string_app_inv_r in Heq. congruence.
      - pose proof (endswith_loss_count_t t') as He. rewrite <- Heq in He.
        by rewrite endswith_loss_t in He. }
    assert (Hk2 : ∀ t', t' ∈ Trainer.task b →
              t +:+ "_loss_count" ≠ t' +:+ "_loss" ∧
              t +:+ "_loss_count" ≠ t' +:+ "_loss_count").
    { intros t' Ht'. split; intros Heq.
      - pose proof (endswith_loss_count_t t) as He. rewrite Heq in He.
        by rewrite endswith_loss_t in He.
      - rewrite !loss_count_key in Heq.
        do 2 apply string_app_inv_r in Heq. congruence. }
    rewrite (Hother _ Hk1), (Hother _ Hk2). unfold base.
    assert (t +:+ "_loss" ≠ "total_loss").
    { intros Heq. apply Htot.
      by apply (string_app_inv_r t "total" "_loss"). }
    assert (t +:+ "_loss" ≠ "total_loss_count").
    { intros Heq. pose proof (endswith_loss_t t) as He.
      rewrite Heq in He. revert He. compute_done. }
    assert (t +:+ "_loss" ≠ "loss").
    { intros Heq. pose proof (endswith_app t "_loss") as He.
      rewrite Heq in He. revert He. compute_done. }
    assert (t +:+ "_loss_count" ≠ "total_loss").
    { intros Heq. pose proof (endswith_loss_count_t t) as He.
      rewrite Heq in He. revert He. compute_done. }
    assert (t +:+ "_loss_count" ≠ "total_loss_count").
    { intros Heq. apply Htot. rewrite loss_count_key in Heq.
      apply (string_app_inv_r t "total" "_loss").
      by apply (string_app_inv_r _ "total_loss" "_count"). }
    assert (t +:+ "_loss_count" ≠ "loss").
    { intros Heq. pose proof (endswith_loss_count_t t) as He.
      rewrite Heq in He. revert He. compute_done. }
    by rewrite !lookup_insert_ne, lookup_empty.
Qed.

Lemma C8_batch_results_witness :
  ∃ results c,
    Trainer.forward Sample.tr Sample.b Sample.output_loss = Ok results ∧
    results !! "link_loss_count" = Some (VInt c) ∧ (0 < c)%Z.
Proof.
  assert (∃ loss,
            Trainer.example_loss (length (Trainer.target_ids Sample.b))
              (Trainer.seq_len Sample.b) (Trainer.target_ids Sample.b)
              Sample.output_loss = Ok loss ∧ length loss = 2)
    as (loss & Hl & Hlen).
  { eexists. split; [vm_compute; reflexivity|reflexivity]. }
  destruct (C8_batch_results Sample.tr Sample.b Sample.output_loss loss Hl)
    as (results & Hf & _ & Htasks).
  - rewrite Hlen. reflexivity.
  - rewrite Hlen. reflexivity.
  - intros t Ht. exact Ht.
  - destruct (proj1 Htasks "link") as (_ & Hc & Hpos).
    { apply elem_of_cons. left. reflexivity. }
    exists results. eexists. split; [exact Hf|]. split; [exact Hc|]. lia.
Defined.
